(** * Subscription tracker backend

    A model of [models/Subscription.js] and [routes/subscriptions.js], and
    the properties of the CRUD and aggregation endpoints.

    Conventions of the embedding.
    - A JavaScript Number is an IEEE-754 binary64 value: Rocq's primitive
      [float], whose operations are the processor's.
    - A Date is its time value, an integer count of milliseconds ([Z]).
    - An ObjectId is a natural number ([N]); [req.params.id] and
      [req.userId] are taken after the cast to ObjectId.
    - A request body is taken after JSON parsing, with every schema path
      carrying a value of its schema type; paths outside the schema are
      dropped by mongoose (strict mode) and do not appear.
    - Strings are byte strings; [\s] is ASCII white space.
    - The collection is the list of its documents in insertion order.
    - [Date.now()] and the ObjectId generated for a new document are
      arguments of the handler that reads them. *)

From Stdlib Require Import ZArith List Bool String Ascii Floats Lia.
From Stdlib Require Import Permutation Sorted.
From stdpp Require Import gmap strings.
Import ListNotations.

Local Open Scope string_scope.
Local Open Scope Z_scope.

(* ===================================================================== *)
(** ** JavaScript numbers                                                 *)
(* ===================================================================== *)

Module JsNum.

(** [ToBoolean] of a Number: [+0], [-0] and [NaN] are falsy. *)
Definition truthy (x : float) : bool := negb (is_zero x || is_nan x).

(** [v || 0] where [v] is a Number or [undefined]. *)
Definition or_zero (v : option float) : float :=
  match v with
  | Some x => if truthy x then x else 0%float
  | None => 0%float
  end.

(** The string produced by [x.toFixed(2)]: either a sign and a count of
    hundredths (printed with two fraction digits), or [String(x)] for a
    value that is not finite or is at least 10^21. *)
Inductive fixed :=
  | Digits (neg : bool) (hundredths : Z)
  | Literal (x : float).

(** [Number.prototype.toFixed] with 2 fraction digits.  A finite nonzero
    [x] is exactly [m * 2^e]; the hundredths are the integer [n] that
    makes [n / 100 - |x|] closest to zero, the larger one on a tie. *)
Definition toFixed2 (x : float) : fixed :=
  match Prim2SF x with
  | S754_finite s m e =>
      let num := Z.pos m * 2 ^ Z.max e 0 in
      let den := 2 ^ Z.max (- e) 0 in
      if 10 ^ 21 * den <=? num then Literal x
      else Digits s ((200 * num + den) / (2 * den))
  | S754_zero _ => Digits false 0
  | _ => Literal x
  end.

(** [parseFloat] on the strings [toFixed2] produces: the binary64 value
    nearest to the decimal, that is the correctly rounded quotient of the
    integers [n] and [100]. *)
Definition parseFloat (d : fixed) : float :=
  match d with
  | Digits s (Zpos p) =>
      SF2Prim (SFdiv prec emax (S754_finite s p 0) (S754_finite false 100 0))
  | Digits s _ => if s then neg_zero else zero
  | Literal x => x
  end.

(** [parseFloat(x.toFixed(2))]. *)
Definition round2 (x : float) : float := parseFloat (toFixed2 x).

(** Left-to-right binary64 sum, starting from [0]. *)
Definition fsum (l : list float) : float := fold_left PrimFloat.add l 0%float.

End JsNum.

(* ===================================================================== *)
(** ** Array.prototype.sort                                               *)
(* ===================================================================== *)

Module JsArray.
Section Sort.
Context {A : Type}.
(** The comparator, as in JavaScript: negative when the first argument
    goes first. *)
Variable cmp : A -> A -> Z.

Fixpoint insert (x : A) (l : list A) : list A :=
  match l with
  | [] => [x]
  | y :: l' => if cmp x y <=? 0 then x :: l else y :: insert x l'
  end.

(** A stable sort (ECMAScript 2019): equal elements keep their order. *)
Definition sort (l : list A) : list A := fold_right insert [] l.

(** [l.slice(0, n)] *)
Definition slice0 (n : nat) (l : list A) : list A := firstn n l.
End Sort.
End JsArray.

(* ===================================================================== *)
(** ** express-validator                                                  *)
(* ===================================================================== *)

Module Validator.

Record ValidationError := { param : string; msg : string }.

Definition is_space (c : ascii) : bool :=
  let n := nat_of_ascii c in
  ((9 <=? n)%nat && (n <=? 13)%nat) || (n =? 32)%nat.

Fixpoint trim_left (s : string) : string :=
  match s with
  | String c t => if is_space c then trim_left t else s
  | EmptyString => EmptyString
  end.

Fixpoint trim_right (s : string) : string :=
  match s with
  | String c t =>
      let t' := trim_right t in
      if is_space c && String.eqb t' "" then "" else String c t'
  | EmptyString => EmptyString
  end.

(** The [trim()] sanitizer. *)
Definition trim (s : string) : string := trim_right (trim_left s).

(** [notEmpty()] *)
Definition notEmpty (s : string) : bool := negb (String.eqb s "").

(** [isFloat({ min: 0 })] on a Number: the validator reads [String(x)],
    which has the shape of a float literal exactly when [x] is finite,
    and parses back to [x]. *)
Definition isFloat_min0 (x : float) : bool := is_finite x && (0 <=? x)%float.

(** [isIn(values)] *)
Definition isIn (values : list string) (s : string) : bool :=
  existsb (String.eqb s) values.

Definition invalid (p m : string) : list ValidationError :=
  [ {| param := p; msg := m |} ].

(** One chain on a required field of type [T]: an absent field is read as
    the empty string, which no validator of this router accepts. *)
Definition required {T} (p m : string) (ok : T -> bool) (v : option T)
  : list ValidationError :=
  match v with
  | Some x => if ok x then [] else invalid p m
  | None => invalid p m
  end.

(** One chain that starts with [optional()]: skipped on an absent field. *)
Definition optional {T} (p m : string) (ok : T -> bool) (v : option T)
  : list ValidationError :=
  match v with
  | Some x => if ok x then [] else invalid p m
  | None => []
  end.

(** The message of a chain without [withMessage]. *)
Definition default_msg : string := "Invalid value".

End Validator.

(* ===================================================================== *)
(** ** models/Subscription.js                                             *)
(* ===================================================================== *)

Definition ObjectId := N.
Definition Date := Z.
Bind Scope N_scope with ObjectId.
Bind Scope Z_scope with Date.

(** A request body: each schema path is present ([Some]) or absent. *)
Module Body.
Record t := {
  user : option ObjectId;
  name : option string;
  cost : option float;
  billingCycle : option string;
  renewalDate : option Date;
  category : option string;
  color : option string;
  isActive : option bool;
  notes : option string;
  createdAt : option Date;
  updatedAt : option Date }.
End Body.

Module Subscription.

(** A stored document of [subscriptionSchema].  The [trim] setter of [name]
    is left out: both routes hand over a [name] that the sanitizer has
    trimmed, and trimming twice is trimming once ([trim_idempotent]). *)
Record t := {
  _id : ObjectId;
  user : ObjectId;
  name : string;
  cost : float;
  billingCycle : string;
  renewalDate : option Date;
  category : string;
  color : string;
  isActive : bool;
  notes : option string;
  createdAt : Date;
  updatedAt : Date }.

(** The virtual [monthlyCost]. *)
Definition monthlyCost (this : t) : float :=
  if String.eqb (billingCycle this) "yearly" then (cost this / 12)%float
  else cost this.

(** The [pre('save')] hook: [this.updatedAt = Date.now()]. *)
Definition pre_save (now : Date) (this : t) : t :=
  {| _id := _id this; user := user this; name := name this;
     cost := cost this; billingCycle := billingCycle this;
     renewalDate := renewalDate this; category := category this;
     color := color this; isActive := isActive this; notes := notes this;
     createdAt := createdAt this; updatedAt := now |}.

(** *** Schema validators *)

Definition billingCycles : list string := ["monthly"; "yearly"].
Definition categories : list string :=
  ["entertainment"; "productivity"; "fitness"; "education"; "music";
   "news"; "cloud"; "other"].

Definition is_hex (c : ascii) : bool :=
  let n := nat_of_ascii c in
  ((48 <=? n) && (n <=? 57) || (65 <=? n) && (n <=? 70)
   || (97 <=? n) && (n <=? 102))%nat.

(** [/^#[0-9A-F]{6}$/i] *)
Definition color_regex (s : string) : bool :=
  match s with
  | String "#" t =>
      (String.length t =? 6)%nat && forallb is_hex (list_ascii_of_string t)
  | _ => false
  end.

(** [required] on a String path rejects the empty string. *)
Definition name_valid (v : string) : bool := negb (String.eqb v "").
(** [min: 0] *)
Definition cost_valid (v : float) : bool := (0 <=? v)%float.
Definition billingCycle_valid (v : string) : bool := Validator.isIn billingCycles v.
Definition category_valid (v : string) : bool := Validator.isIn categories v.
(** mongoose's [match] validator lets the empty string through. *)
Definition color_valid (v : string) : bool := String.eqb v "" || color_regex v.
(** [maxlength: 500] *)
Definition notes_valid (v : string) : bool := (String.length v <=? 500)%nat.

Definition opt {T} (ok : T -> bool) (v : option T) : bool :=
  match v with Some x => ok x | None => true end.

(** Document validation, run by [save]. *)
Definition validate (d : t) : bool :=
  name_valid (name d) && cost_valid (cost d)
  && billingCycle_valid (billingCycle d) && category_valid (category d)
  && color_valid (color d) && opt notes_valid (notes d).

(** Update validation ([runValidators: true]): the validators of the
    paths the update sets. *)
Definition validate_update (u : Body.t) : bool :=
  opt name_valid (Body.name u) && opt cost_valid (Body.cost u)
  && opt billingCycle_valid (Body.billingCycle u)
  && opt category_valid (Body.category u)
  && opt color_valid (Body.color u) && opt notes_valid (Body.notes u).

(** [new Subscription(obj)] with the schema defaults; [oid] is the
    generated [_id] and [now] the clock read by the [Date.now] defaults.
    [None] is a document that lacks a required path, which [save]
    rejects. *)
Definition construct (oid : ObjectId) (now : Date) (obj : Body.t) : option t :=
  match Body.user obj, Body.name obj, Body.cost obj with
  | Some u, Some n, Some c =>
      Some {| _id := oid; user := u; name := n; cost := c;
              billingCycle := default "monthly" (Body.billingCycle obj);
              renewalDate := Body.renewalDate obj;
              category := default "other" (Body.category obj);
              color := default "#6366f1" (Body.color obj);
              isActive := default true (Body.isActive obj);
              notes := Body.notes obj;
              createdAt := default now (Body.createdAt obj);
              updatedAt := default now (Body.updatedAt obj) |}
  | _, _, _ => None
  end.

(** The update [u] applied to a document: the paths it has are set. *)
Definition set (u : Body.t) (d : t) : t :=
  {| _id := _id d;
     user := default (user d) (Body.user u);
     name := default (name d) (Body.name u);
     cost := default (cost d) (Body.cost u);
     billingCycle := default (billingCycle d) (Body.billingCycle u);
     renewalDate := from_option Some (renewalDate d) (Body.renewalDate u);
     category := default (category d) (Body.category u);
     color := default (color d) (Body.color u);
     isActive := default (isActive d) (Body.isActive u);
     notes := from_option Some (notes d) (Body.notes u);
     createdAt := default (createdAt d) (Body.createdAt u);
     updatedAt := default (updatedAt d) (Body.updatedAt u) |}.

(** *** The collection *)

(** [Subscription.find(q)] *)
Definition find (q : t -> bool) (db : list t) : list t := List.filter q db.

(** [Subscription.findOne(q)] *)
Definition findOne (q : t -> bool) (db : list t) : option t := List.find q db.

(** [Subscription.findOneAndUpdate(q, u, { new: true })]: the first match
    is updated in place and returned as updated. *)
Fixpoint findOneAndUpdate (q : t -> bool) (u : Body.t) (db : list t)
  : option t * list t :=
  match db with
  | [] => (None, [])
  | d :: db' =>
      if q d then (Some (set u d), set u d :: db')
      else let '(r, db'') := findOneAndUpdate q u db' in (r, d :: db'')
  end.

(** [doc.save()] of a new document: validation, then the [pre('save')]
    hook, then the insert, which the unique index on [_id] can refuse.
    [None] is a thrown error. *)
Definition save (now : Date) (d : t) (db : list t) : option (t * list t) :=
  if validate d then
    let d' := pre_save now d in
    if existsb (fun x => N.eqb (_id x) (_id d')) db then None
    else Some (d', (db ++ [d'])%list)
  else None.

(** [.sort({ createdAt: -1 })]; documents created at the same millisecond
    keep their insertion order here (MongoDB leaves their order open). *)
Definition sort_createdAt_desc (l : list t) : list t :=
  JsArray.sort (fun a b => createdAt b - createdAt a) l.

End Subscription.

(* ===================================================================== *)
(** ** routes/subscriptions.js                                            *)
(* ===================================================================== *)

Module Routes.
Import Validator.

(** *** Responses *)

Record Totals := { monthly : float; yearly : float }.

(** An entry of [upcomingRenewals]. *)
Module Renewal.
Record t := {
  id : ObjectId;
  name : string;
  renewalDate : option Date;
  cost : float;
  billingCycle : string }.
End Renewal.

Record Stats := {
  totalSubscriptions : nat;
  categoryBreakdown : gmap string float;
  upcomingRenewals : list Renewal.t }.

Variant Payload :=
  | Subscriptions (count : nat) (subscriptions : list Subscription.t) (totals : Totals)
  | OneSubscription (subscription : Subscription.t)
  | StatsOverview (stats : Stats)
  | Errors (errors : list ValidationError)
  | NoPayload.

(** [res.status(status).json({ success, message, ...payload })] *)
Record Response := {
  status : nat;
  success : bool;
  message : option string;
  payload : Payload }.

Definition ok (m : option string) (p : Payload) : Response :=
  {| status := 200; success := true; message := m; payload := p |}.
Definition created (s : Subscription.t) : Response :=
  {| status := 201; success := true;
     message := Some "Subscription created successfully";
     payload := OneSubscription s |}.
Definition bad_request (errors : list ValidationError) : Response :=
  {| status := 400; success := false; message := None; payload := Errors errors |}.
Definition not_found : Response :=
  {| status := 404; success := false;
     message := Some "Subscription not found"; payload := NoPayload |}.
Definition server_error : Response :=
  {| status := 500; success := false;
     message := Some "Server error"; payload := NoPayload |}.

(** *** Queries *)

(** [{ user: req.userId, isActive: true }] *)
Definition q_active (userId : ObjectId) (d : Subscription.t) : bool :=
  N.eqb (Subscription.user d) userId && Bool.eqb (Subscription.isActive d) true.

(** [{ _id: req.params.id, user: req.userId }] *)
Definition q_owned (id userId : ObjectId) (d : Subscription.t) : bool :=
  N.eqb (Subscription._id d) id && N.eqb (Subscription.user d) userId.

(** *** GET /api/subscriptions *)

Definition totals_step (acc : Totals) (sub : Subscription.t) : Totals :=
  let monthlyCost :=
    if String.eqb (Subscription.billingCycle sub) "yearly"
    then (Subscription.cost sub / 12)%float else Subscription.cost sub in
  {| monthly := (monthly acc + monthlyCost)%float;
     yearly := (yearly acc + monthlyCost * 12)%float |}.

Definition reduce_totals (subscriptions : list Subscription.t) : Totals :=
  fold_left totals_step subscriptions {| monthly := 0; yearly := 0 |}.

Definition get_subscriptions (db : list Subscription.t) (userId : ObjectId)
  : Response :=
  let subscriptions :=
    Subscription.sort_createdAt_desc (Subscription.find (q_active userId) db) in
  let totals := reduce_totals subscriptions in
  ok None
     (Subscriptions (length subscriptions) subscriptions
        {| monthly := JsNum.round2 (monthly totals);
           yearly := JsNum.round2 (yearly totals) |}).

(** *** GET /api/subscriptions/:id *)

Definition get_subscription (db : list Subscription.t) (userId id : ObjectId)
  : Response :=
  match Subscription.findOne (q_owned id userId) db with
  | None => not_found
  | Some subscription => ok None (OneSubscription subscription)
  end.

(** *** POST /api/subscriptions *)

Definition post_checks (b : Body.t) : list ValidationError :=
  (required "name" "Subscription name is required" notEmpty (trim <$> Body.name b)
   ++ required "cost" "Cost must be a positive number" isFloat_min0 (Body.cost b)
   ++ required "billingCycle" "Billing cycle must be monthly or yearly"
        (isIn ["monthly"; "yearly"]) (Body.billingCycle b)
   ++ optional "category" default_msg
        (isIn ["entertainment"; "productivity"; "fitness"; "education";
               "music"; "news"; "cloud"; "other"]) (Body.category b))%list.

(** The body as the sanitizers leave it: [name] is trimmed. *)
Definition sanitized (b : Body.t) : Body.t :=
  {| Body.user := Body.user b; Body.name := trim <$> Body.name b;
     Body.cost := Body.cost b; Body.billingCycle := Body.billingCycle b;
     Body.renewalDate := Body.renewalDate b; Body.category := Body.category b;
     Body.color := Body.color b; Body.isActive := Body.isActive b;
     Body.notes := Body.notes b; Body.createdAt := Body.createdAt b;
     Body.updatedAt := Body.updatedAt b |}.

(** [{ ...req.body, user: req.userId }] *)
Definition with_user (b : Body.t) (userId : ObjectId) : Body.t :=
  {| Body.user := Some userId; Body.name := Body.name b;
     Body.cost := Body.cost b; Body.billingCycle := Body.billingCycle b;
     Body.renewalDate := Body.renewalDate b; Body.category := Body.category b;
     Body.color := Body.color b; Body.isActive := Body.isActive b;
     Body.notes := Body.notes b; Body.createdAt := Body.createdAt b;
     Body.updatedAt := Body.updatedAt b |}.

(** [oid] is the new document's [_id]; [t_new] and [t_save] are the clock
    as read by the schema defaults and by the [pre('save')] hook. *)
Definition post_subscription (db : list Subscription.t) (userId : ObjectId)
    (body : Body.t) (oid : ObjectId) (t_new t_save : Date)
  : Response * list Subscription.t :=
  match post_checks body with
  | (_ :: _) as errors => (bad_request errors, db)
  | [] =>
      match Subscription.construct oid t_new (with_user (sanitized body) userId) with
      | Some subscription =>
          match Subscription.save t_save subscription db with
          | Some (saved, db') => (created saved, db')
          | None => (server_error, db)
          end
      | None => (server_error, db)
      end
  end.

(** *** PUT /api/subscriptions/:id *)

Definition put_checks (b : Body.t) : list ValidationError :=
  (optional "name" default_msg notEmpty (trim <$> Body.name b)
   ++ optional "cost" default_msg isFloat_min0 (Body.cost b)
   ++ optional "billingCycle" default_msg
        (isIn ["monthly"; "yearly"]) (Body.billingCycle b)
   ++ optional "category" default_msg
        (isIn ["entertainment"; "productivity"; "fitness"; "education";
               "music"; "news"; "cloud"; "other"]) (Body.category b))%list.

(** [{ ...req.body, updatedAt: Date.now() }] *)
Definition with_updatedAt (b : Body.t) (now : Date) : Body.t :=
  {| Body.user := Body.user b; Body.name := Body.name b;
     Body.cost := Body.cost b; Body.billingCycle := Body.billingCycle b;
     Body.renewalDate := Body.renewalDate b; Body.category := Body.category b;
     Body.color := Body.color b; Body.isActive := Body.isActive b;
     Body.notes := Body.notes b; Body.createdAt := Body.createdAt b;
     Body.updatedAt := Some now |}.

Definition put_subscription (db : list Subscription.t) (userId id : ObjectId)
    (body : Body.t) (now : Date) : Response * list Subscription.t :=
  match put_checks body with
  | (_ :: _) as errors => (bad_request errors, db)
  | [] =>
      let update := with_updatedAt (sanitized body) now in
      if Subscription.validate_update update then
        match Subscription.findOneAndUpdate (q_owned id userId) update db with
        | (Some subscription, db') =>
            (ok (Some "Subscription updated successfully")
                (OneSubscription subscription), db')
        | (None, _) => (not_found, db)
        end
      else (server_error, db)
  end.

(** *** DELETE /api/subscriptions/:id *)

(** [{ isActive: false, updatedAt: Date.now() }] *)
Definition soft_delete (now : Date) : Body.t :=
  {| Body.user := None; Body.name := None; Body.cost := None;
     Body.billingCycle := None; Body.renewalDate := None;
     Body.category := None; Body.color := None;
     Body.isActive := Some false; Body.notes := None;
     Body.createdAt := None; Body.updatedAt := Some now |}.

Definition delete_subscription (db : list Subscription.t) (userId id : ObjectId)
    (now : Date) : Response * list Subscription.t :=
  match Subscription.findOneAndUpdate (q_owned id userId) (soft_delete now) db with
  | (Some subscription, db') =>
      (ok (Some "Subscription deleted successfully") NoPayload, db')
  | (None, _) => (not_found, db)
  end.

(** *** GET /api/subscriptions/stats/overview *)

Definition breakdown_step (acc : gmap string float) (sub : Subscription.t)
  : gmap string float :=
  let monthlyCost :=
    if String.eqb (Subscription.billingCycle sub) "yearly"
    then (Subscription.cost sub / 12)%float else Subscription.cost sub in
  <[ Subscription.category sub :=
       (JsNum.or_zero (acc !! Subscription.category sub) + monthlyCost)%float ]> acc.

Definition reduce_breakdown (subscriptions : list Subscription.t)
  : gmap string float :=
  fold_left breakdown_step subscriptions ∅.

(** [now.getTime() + 30 * 24 * 60 * 60 * 1000] *)
Definition thirtyDaysLater (now : Date) : Date := now + 30 * 24 * 60 * 60 * 1000.

(** [sub.renewalDate && new Date(sub.renewalDate) <= thirtyDaysLater] *)
Definition renews_soon (now : Date) (sub : Subscription.t) : bool :=
  match Subscription.renewalDate sub with
  | Some d => d <=? thirtyDaysLater now
  | None => false
  end.

(** [new Date(a.renewalDate) - new Date(b.renewalDate)]; without a date
    the difference is [NaN], which [sort] reads as [0]. *)
Definition by_renewalDate (a b : Subscription.t) : Z :=
  match Subscription.renewalDate a, Subscription.renewalDate b with
  | Some x, Some y => x - y
  | _, _ => 0
  end.

Definition project (sub : Subscription.t) : Renewal.t :=
  {| Renewal.id := Subscription._id sub;
     Renewal.name := Subscription.name sub;
     Renewal.renewalDate := Subscription.renewalDate sub;
     Renewal.cost := Subscription.cost sub;
     Renewal.billingCycle := Subscription.billingCycle sub |}.

Definition upcoming (now : Date) (subscriptions : list Subscription.t)
  : list Subscription.t :=
  JsArray.slice0 5
    (JsArray.sort by_renewalDate (List.filter (renews_soon now) subscriptions)).

Definition compute_stats (now : Date) (subscriptions : list Subscription.t) : Stats :=
  {| totalSubscriptions := length subscriptions;
     categoryBreakdown := reduce_breakdown subscriptions;
     upcomingRenewals := List.map project (upcoming now subscriptions) |}.

Definition get_stats_overview (db : list Subscription.t) (userId : ObjectId)
    (now : Date) : Response :=
  let subscriptions := Subscription.find (q_active userId) db in
  ok None (StatsOverview (compute_stats now subscriptions)).

End Routes.


(* ===================================================================== *)
(** ** Sample data                                                        *)
(* ===================================================================== *)

Module Sample.

(** An active document of user [userId] with the schema defaults. *)
Definition doc (id userId : ObjectId) (cost : float) (billingCycle : string)
    (createdAt : Date) : Subscription.t :=
  {| Subscription._id := id; Subscription.user := userId;
     Subscription.name := "Plan"; Subscription.cost := cost;
     Subscription.billingCycle := billingCycle;
     Subscription.renewalDate := None; Subscription.category := "other";
     Subscription.color := "#6366f1"; Subscription.isActive := true;
     Subscription.notes := None; Subscription.createdAt := createdAt;
     Subscription.updatedAt := createdAt |}.

(** [{cost: 12, cycle: monthly}, {cost: 120, cycle: yearly}] *)
Definition two_plans : list Subscription.t :=
  [doc 1 7 12 "monthly" 1000; doc 2 7 120 "yearly" 2000].

(** A monthly plan of 0.125 and a yearly plan of 0.005, that is of the
    binary64 value a JSON parser reads [0.005] as. *)
Definition small_plans : list Subscription.t :=
  [doc 1 7 0.125 "monthly" 1000; doc 2 7 0x1.47ae147ae147bp-8 "yearly" 2000].

(** The same document after a soft delete at time 5000. *)
Definition deleted (d : Subscription.t) : Subscription.t :=
  Subscription.set (Routes.soft_delete 5000) d.

(** A create request for a monthly plan; the client also sends an
    [updatedAt]. *)
Definition netflix (cost : float) : Body.t :=
  {| Body.user := None; Body.name := Some " Netflix ";
     Body.cost := Some cost; Body.billingCycle := Some "monthly";
     Body.renewalDate := None; Body.category := None; Body.color := None;
     Body.isActive := None; Body.notes := None; Body.createdAt := None;
     Body.updatedAt := Some 5 |}.

(** [{ updatedAt: 5 }] *)
Definition only_updatedAt : Body.t :=
  {| Body.user := None; Body.name := None; Body.cost := None;
     Body.billingCycle := None; Body.renewalDate := None;
     Body.category := None; Body.color := None; Body.isActive := None;
     Body.notes := None; Body.createdAt := None; Body.updatedAt := Some 5 |}.

(** [{ isActive: true, user: 8 }] *)
Definition reactivate_for_8 : Body.t :=
  {| Body.user := Some 8%N; Body.name := None; Body.cost := None;
     Body.billingCycle := None; Body.renewalDate := None;
     Body.category := None; Body.color := None; Body.isActive := Some true;
     Body.notes := None; Body.createdAt := None; Body.updatedAt := None |}.

End Sample.


(* ===================================================================== *)
(** ** Vocabulary of the properties                                       *)
(* ===================================================================== *)

Import Routes.

(** [+0], a positive finite value or [+infinity]: the values a running sum
    of non-negative costs takes. *)
Definition positive_class (x : spec_float) : Prop :=
  match x with
  | S754_zero false | S754_finite false _ _ | S754_infinity false => True
  | _ => False
  end.

(** A zero of either sign, a positive finite value or [+infinity]: the
    values [v] with [0 <= v]. *)
Definition nonneg_class (x : spec_float) : Prop :=
  match x with
  | S754_zero _ | S754_finite false _ _ | S754_infinity false => True
  | _ => False
  end.

Definition positive_values (acc : gmap string float) : Prop :=
  forall k v, acc !! k = Some v -> positive_class (Prim2SF v).

(** [sub.category === c] *)
Definition in_category (c : string) (sub : Subscription.t) : bool :=
  String.eqb (Subscription.category sub) c.

(** The renewal date as a sort key; [0] stands for a missing date. *)
Definition renewal_key (sub : Subscription.t) : Z :=
  default 0 (Subscription.renewalDate sub).

(** A string that does not begin with white space. *)
Definition starts_clean (s : string) : Prop :=
  match s with
  | String c _ => Validator.is_space c = false
  | EmptyString => True
  end.

(** A collection whose documents all pass the schema's validators. *)
Definition schema_valid (db : list Subscription.t) : Prop :=
  Forall (fun d => Subscription.validate d = true) db.

(** The subscriptions a list response shows. *)
Definition listed (r : Response) : list Subscription.t :=
  match payload r with
  | Subscriptions _ subscriptions _ => subscriptions
  | _ => []
  end.

(** Every path the update object [u] has is the value of the document. *)
Definition written (u : Body.t) (d : Subscription.t) : Prop :=
  (forall v, Body.user u = Some v -> Subscription.user d = v)
  /\ (forall v, Body.name u = Some v -> Subscription.name d = v)
  /\ (forall v, Body.cost u = Some v -> Subscription.cost d = v)
  /\ (forall v, Body.billingCycle u = Some v -> Subscription.billingCycle d = v)
  /\ (forall v, Body.renewalDate u = Some v -> Subscription.renewalDate d = Some v)
  /\ (forall v, Body.category u = Some v -> Subscription.category d = v)
  /\ (forall v, Body.color u = Some v -> Subscription.color d = v)
  /\ (forall v, Body.isActive u = Some v -> Subscription.isActive d = v)
  /\ (forall v, Body.notes u = Some v -> Subscription.notes d = Some v)
  /\ (forall v, Body.createdAt u = Some v -> Subscription.createdAt d = v)
  /\ (forall v, Body.updatedAt u = Some v -> Subscription.updatedAt d = v).

(* ===================================================================== *)
(** ** Further vocabulary and scenarios                                   *)
(* ===================================================================== *)

(** [{ user: userId }]: the documents of one user. *)
Definition own (userId : ObjectId) (d : Subscription.t) : bool :=
  N.eqb (Subscription.user d) userId.

(** Every path the update object [u] lacks has in [d'] the value it has
    in [d]. *)
Definition kept (u : Body.t) (d d' : Subscription.t) : Prop :=
  (Body.user u = None -> Subscription.user d' = Subscription.user d)
  /\ (Body.name u = None -> Subscription.name d' = Subscription.name d)
  /\ (Body.cost u = None -> Subscription.cost d' = Subscription.cost d)
  /\ (Body.billingCycle u = None ->
      Subscription.billingCycle d' = Subscription.billingCycle d)
  /\ (Body.renewalDate u = None ->
      Subscription.renewalDate d' = Subscription.renewalDate d)
  /\ (Body.category u = None -> Subscription.category d' = Subscription.category d)
  /\ (Body.color u = None -> Subscription.color d' = Subscription.color d)
  /\ (Body.isActive u = None -> Subscription.isActive d' = Subscription.isActive d)
  /\ (Body.notes u = None -> Subscription.notes d' = Subscription.notes d)
  /\ (Body.createdAt u = None -> Subscription.createdAt d' = Subscription.createdAt d).

(** The document a create request stores: the sanitized body with the
    requester as owner, the schema defaults for what the body lacks, and
    the time of the save as [updatedAt]. *)
Definition stored (oid userId : ObjectId) (body : Body.t) (name : string)
    (cost : float) (billingCycle : string) (t_new t_save : Date) : Subscription.t :=
  {| Subscription._id := oid; Subscription.user := userId;
     Subscription.name := Validator.trim name; Subscription.cost := cost;
     Subscription.billingCycle := billingCycle;
     Subscription.renewalDate := Body.renewalDate body;
     Subscription.category := default "other" (Body.category body);
     Subscription.color := default "#6366f1" (Body.color body);
     Subscription.isActive := default true (Body.isActive body);
     Subscription.notes := Body.notes body;
     Subscription.createdAt := default t_new (Body.createdAt body);
     Subscription.updatedAt := t_save |}.

Module Scenario.

(** A create request with a color that is no hex color, from a client that
    also names another user as owner. *)
Definition bad_color : Body.t :=
  {| Body.user := Some 8%N; Body.name := Some "Gym";
     Body.cost := Some 30%float; Body.billingCycle := Some "monthly";
     Body.renewalDate := None; Body.category := Some "fitness";
     Body.color := Some "red"; Body.isActive := None; Body.notes := None;
     Body.createdAt := None; Body.updatedAt := None |}.

(** The same request with a hex color. *)
Definition gym : Body.t :=
  {| Body.user := Some 8%N; Body.name := Some "Gym";
     Body.cost := Some 30%float; Body.billingCycle := Some "monthly";
     Body.renewalDate := None; Body.category := Some "fitness";
     Body.color := Some "#00ff00"; Body.isActive := None; Body.notes := None;
     Body.createdAt := None; Body.updatedAt := None |}.

(** A create request whose name is white space. *)
Definition blank_name : Body.t :=
  {| Body.user := None; Body.name := Some "   ";
     Body.cost := Some 30%float; Body.billingCycle := Some "monthly";
     Body.renewalDate := None; Body.category := None;
     Body.color := None; Body.isActive := None; Body.notes := None;
     Body.createdAt := None; Body.updatedAt := None |}.

(** [{ cost: -1 }] *)
Definition negative_cost : Body.t :=
  {| Body.user := None; Body.name := None; Body.cost := Some (-1)%float;
     Body.billingCycle := None; Body.renewalDate := None;
     Body.category := None; Body.color := None; Body.isActive := None;
     Body.notes := None; Body.createdAt := None; Body.updatedAt := None |}.

(** A create request without [billingCycle]. *)
Definition no_cycle : Body.t :=
  {| Body.user := None; Body.name := Some "Gym";
     Body.cost := Some 30%float; Body.billingCycle := None;
     Body.renewalDate := None; Body.category := None;
     Body.color := None; Body.isActive := None; Body.notes := None;
     Body.createdAt := None; Body.updatedAt := None |}.

(** [{ cost: 15 }] *)
Definition new_cost : Body.t :=
  {| Body.user := None; Body.name := None; Body.cost := Some 15%float;
     Body.billingCycle := None; Body.renewalDate := None;
     Body.category := None; Body.color := None; Body.isActive := None;
     Body.notes := None; Body.createdAt := None; Body.updatedAt := None |}.

(** [{ user: 8 }] *)
Definition give_to_8 : Body.t :=
  {| Body.user := Some 8%N; Body.name := None; Body.cost := None;
     Body.billingCycle := None; Body.renewalDate := None;
     Body.category := None; Body.color := None; Body.isActive := None;
     Body.notes := None; Body.createdAt := None; Body.updatedAt := None |}.

(** [{ color: "red" }] *)
Definition paint_red : Body.t :=
  {| Body.user := None; Body.name := None; Body.cost := None;
     Body.billingCycle := None; Body.renewalDate := None;
     Body.category := None; Body.color := Some "red"; Body.isActive := None;
     Body.notes := None; Body.createdAt := None; Body.updatedAt := None |}.

(** An active document of user 7 that renews at time [renews]. *)
Definition renewing (id : ObjectId) (renews : Date) : Subscription.t :=
  {| Subscription._id := id; Subscription.user := 7%N;
     Subscription.name := "Plan"; Subscription.cost := 12%float;
     Subscription.billingCycle := "monthly";
     Subscription.renewalDate := Some renews; Subscription.category := "other";
     Subscription.color := "#6366f1"; Subscription.isActive := true;
     Subscription.notes := None; Subscription.createdAt := 1000;
     Subscription.updatedAt := 1000 |}.

(** Two documents of user 7 and one of user 8. *)
Definition shared : list Subscription.t :=
  (Sample.two_plans ++ [Sample.doc 3 8 5 "monthly" 3000])%list.

End Scenario.

(* ===================================================================== *)
(** * Properties                                                          *)
(* ===================================================================== *)

(** ** The model at work *)

Example toFixed2_ties_go_up :
  map JsNum.toFixed2 [22; 0.125; 0.375; 2.5; (-0.125); 0; (-0); 1e21]%float =
  [JsNum.Digits false 2200; JsNum.Digits false 13; JsNum.Digits false 38;
   JsNum.Digits false 250; JsNum.Digits true 13; JsNum.Digits false 0;
   JsNum.Digits false 0; JsNum.Literal 1e21].
Proof. vm_compute. reflexivity. Qed.

Example round2_values :
  map JsNum.round2 [22; 0.0625; 2.5; 1e21; infinity]%float =
  [22; 0x1.eb851eb851eb8p-5; 2.5; 1e21; infinity]%float.
Proof. vm_compute. reflexivity. Qed.

Example or_zero_values :
  map JsNum.or_zero [None; Some 0; Some (-0); Some nan; Some 1.5]%float =
  [0; 0; 0; 0; 1.5]%float.
Proof. vm_compute. reflexivity. Qed.

Example trim_values :
  map Validator.trim ["  Netflix "; "a b"; "   "; ""] = ["Netflix"; "a b"; ""; ""].
Proof. reflexivity. Qed.

Example color_values :
  map Subscription.color_valid ["#6366f1"; "#E50914"; ""; "#fff"; "6366f1"; "#63g6f1"]
  = [true; true; true; false; false; false].
Proof. reflexivity. Qed.

Example sort_is_stable :
  JsArray.sort (fun a b => fst a - fst b) [(2, "a"); (1, "b"); (2, "c"); (1, "d")]
  = [(1, "b"); (1, "d"); (2, "a"); (2, "c")].
Proof. reflexivity. Qed.

Example create_then_list :
  let '(r, db) := post_subscription Sample.two_plans 7 (Sample.netflix 16) 3 3000 3001 in
  status r = 201%nat
  /\ map Subscription._id (listed (get_subscriptions db 7)) = [3; 2; 1]%N
  /\ map Subscription.name (listed (get_subscriptions db 7)) = ["Netflix"; "Plan"; "Plan"].
Proof. vm_compute. repeat split. Qed.

(** ** Binary64 facts *)

(** Two binary64 values with different decompositions are different. *)
Lemma float_neq (x y : float) : Prim2SF x <> Prim2SF y -> x <> y.
Proof. intros H E. apply H. now rewrite E. Qed.

Section Binary64.

Lemma iter_pos_preserves {A} (P : A -> Prop) (f : A -> A) :
  (forall x, P x -> P (f x)) ->
  forall p x, P x -> P (SpecFloat.iter_pos f p x).
Proof.
  intros Hf. induction p as [p IH|p IH|]; intros x Hx; simpl; auto.
Qed.

Lemma shr_1_nonneg mrs : 0 <= shr_m mrs -> 0 <= shr_m (shr_1 mrs).
Proof.
  destruct mrs as [m r s]; simpl.
  destruct m as [|[p|p|]|[p|p|]]; simpl; lia.
Qed.

Lemma shr_fexp_nonneg m e l :
  0 <= m -> 0 <= shr_m (fst (shr_fexp prec emax m e l)).
Proof.
  intros Hm. unfold shr_fexp, shr.
  assert (H0 : 0 <= shr_m (shr_record_of_loc m l)).
  { destruct l as [|[]]; simpl; exact Hm. }
  destruct (fexp prec emax (Zdigits2 m + e) - e) as [|p|p]; simpl; auto.
  apply iter_pos_preserves; auto using shr_1_nonneg.
Qed.

Lemma round_nearest_even_nonneg m l : 0 <= m -> 0 <= round_nearest_even m l.
Proof.
  intros Hm. destruct l as [|[]]; simpl; try lia.
  destruct (Z.even m); lia.
Qed.

(** Rounding a non-negative mantissa gives a zero, a finite value or an
    infinity of the requested sign, never [NaN]. *)
Lemma binary_round_aux_sign sx mx ex lx :
  0 <= mx ->
  match binary_round_aux prec emax sx mx ex lx with
  | S754_zero s | S754_infinity s | S754_finite s _ _ => s = sx
  | S754_nan => False
  end.
Proof.
  intros Hm. unfold binary_round_aux.
  pose proof (shr_fexp_nonneg mx ex lx Hm) as H1.
  destruct (shr_fexp prec emax mx ex lx) as [mrs' e']. simpl in H1.
  pose proof (shr_fexp_nonneg
                (round_nearest_even (shr_m mrs') (loc_of_shr_record mrs')) e'
                loc_Exact (round_nearest_even_nonneg _ _ H1)) as H2.
  destruct (shr_fexp prec emax _ e' loc_Exact) as [mrs'' e'']. simpl in H2.
  destruct (shr_m mrs'') as [|p|p]; try reflexivity; [|lia].
  destruct (e'' <=? emax - prec); reflexivity.
Qed.

Lemma SFadd_positive x y :
  positive_class x -> nonneg_class y -> positive_class (SFadd prec emax x y).
Proof.
  destruct x as [[]|[]| |[] mx ex]; simpl; try tauto; intros _;
    destruct y as [[]|[]| |[] my ey]; simpl; try tauto; intros _.
  unfold binary_normalize, binary_round.
  destruct (shl_align _ _ _) as [mz ez].
  pose proof (binary_round_aux_sign false (Z.pos mz) ez loc_Exact ltac:(lia)) as H.
  destruct (binary_round_aux _ _ _ _ _ _) as [s|s| |s m e]; simpl; subst; tauto.
Qed.

Lemma SFdiv_nonneg x my ey :
  nonneg_class x -> nonneg_class (SFdiv prec emax x (S754_finite false my ey)).
Proof.
  destruct x as [[]|[]| |[] mx ex]; simpl; try tauto; intros _.
  unfold SFdiv_core_binary.
  set (m' := match _ - _ - _ with Z0 => Z.pos mx | Z.pos _ => _ | Z.neg _ => 0 end).
  assert (Hm' : 0 <= m').
  { subst m'. destruct (_ - _ - _) as [|p|p]; try lia.
    apply Z.shiftl_nonneg. lia. }
  pose proof (Z.div_pos m' (Z.pos my) Hm' ltac:(lia)) as Hq.
  unfold Z.div in Hq.
  destruct (Z.div_eucl m' (Z.pos my)) as [q r]. simpl in Hq.
  pose proof (binary_round_aux_sign false q
                (Z.min (fexp prec emax (Zdigits2 (Z.pos mx) + ex
                                        - (Zdigits2 (Z.pos my) + ey)))
                       (ex - ey))
                (new_location (Z.pos my) r) Hq) as H.
  destruct (binary_round_aux _ _ _ _ _ _) as [s|s| |s m e]; simpl; subst; tauto.
Qed.

Lemma leb_zero_nonneg (c : float) :
  (0 <=? c)%float = true <-> nonneg_class (Prim2SF c).
Proof.
  rewrite FloatAxioms.leb_spec.
  replace (Prim2SF 0) with (S754_zero false) by reflexivity.
  unfold SFleb.
  destruct (Prim2SF c) as [[]|[]| |[] m e]; simpl; intuition discriminate.
Qed.

Lemma div_12_nonneg (c : float) :
  nonneg_class (Prim2SF c) -> nonneg_class (Prim2SF (c / 12)).
Proof.
  intros H. rewrite FloatAxioms.div_spec.
  replace (Prim2SF 12) with (S754_finite false 6755399441055744 (-49))
    by reflexivity.
  now apply SFdiv_nonneg.
Qed.

Lemma add_positive (p m : float) :
  positive_class (Prim2SF p) -> nonneg_class (Prim2SF m) ->
  positive_class (Prim2SF (p + m)).
Proof. intros Hp Hm. rewrite FloatAxioms.add_spec. now apply SFadd_positive. Qed.

(** [p || 0] is [p] itself for the values a running sum takes. *)
Lemma or_zero_positive (p : float) :
  positive_class (Prim2SF p) -> JsNum.or_zero (Some p) = p.
Proof.
  intros Hp. unfold JsNum.or_zero, JsNum.truthy, is_zero, is_nan.
  rewrite !FloatAxioms.eqb_spec.
  replace (Prim2SF zero) with (S754_zero false) by reflexivity.
  destruct (Prim2SF p) as [[]|[]| |[] m e] eqn:E; simpl in Hp;
    try contradiction.
  - simpl. apply Prim2SF_inj. now rewrite E.
  - reflexivity.
  - unfold SFeqb; simpl.
    rewrite Z.compare_refl, Pos.compare_cont_refl. reflexivity.
Qed.

Lemma negative_not_isFloat_min0 (c : float) :
  (c <? 0)%float = true -> Validator.isFloat_min0 c = false.
Proof.
  intros H. unfold Validator.isFloat_min0.
  apply andb_false_intro2.
  rewrite FloatAxioms.ltb_spec in H. rewrite FloatAxioms.leb_spec.
  replace (Prim2SF 0) with (S754_zero false) in * by reflexivity.
  unfold SFltb in H. unfold SFleb.
  destruct (Prim2SF c) as [s|s| |s m e]; simpl in *;
    try destruct s; try discriminate; reflexivity.
Qed.

End Binary64.

Lemma monthlyCost_nonneg (s : Subscription.t) :
  Subscription.cost_valid (Subscription.cost s) = true ->
  nonneg_class (Prim2SF (Subscription.monthlyCost s)).
Proof.
  intros H. apply leb_zero_nonneg in H. unfold Subscription.monthlyCost.
  destruct (String.eqb _ _); auto using div_12_nonneg.
Qed.

(** ** The sanitizer *)

Lemma trim_left_clean (s : string) : starts_clean (Validator.trim_left s).
Proof.
  induction s as [|c t IH]; simpl; [exact I|].
  destruct (Validator.is_space c) eqn:E; [exact IH | exact E].
Qed.

Lemma trim_left_of_clean (s : string) :
  starts_clean s -> Validator.trim_left s = s.
Proof. destruct s as [|c t]; simpl; [reflexivity|]. now intros ->. Qed.

Lemma trim_right_clean (s : string) :
  starts_clean s -> starts_clean (Validator.trim_right s).
Proof. destruct s as [|c t]; simpl; [auto|]. intros E. now rewrite E. Qed.

Lemma trim_right_idempotent (s : string) :
  Validator.trim_right (Validator.trim_right s) = Validator.trim_right s.
Proof.
  induction s as [|c t IH]; simpl; [reflexivity|].
  destruct (Validator.is_space c && String.eqb (Validator.trim_right t) "") eqn:E;
    [reflexivity|].
  simpl. now rewrite IH, E.
Qed.

(** Trimming a trimmed string changes nothing: the [trim] setter of the
    schema finds [name] as the sanitizer of the route left it. *)
Lemma trim_idempotent (s : string) :
  Validator.trim (Validator.trim s) = Validator.trim s.
Proof.
  unfold Validator.trim.
  rewrite (trim_left_of_clean (Validator.trim_right (Validator.trim_left s))).
  - apply trim_right_idempotent.
  - apply trim_right_clean, trim_left_clean.
Qed.

(** ** Array.prototype.sort *)

Section SortFacts.
Context {A : Type} (cmp : A -> A -> Z).

Lemma insert_perm (x : A) (l : list A) :
  Permutation (x :: l) (JsArray.insert cmp x l).
Proof.
  induction l as [|y l IH]; simpl; [reflexivity|].
  destruct (cmp x y <=? 0); [reflexivity|].
  rewrite perm_swap. now apply perm_skip.
Qed.

Lemma sort_perm (l : list A) : Permutation l (JsArray.sort cmp l).
Proof.
  induction l as [|x l IH]; simpl; [reflexivity|].
  rewrite <- insert_perm. now apply perm_skip.
Qed.

Lemma sort_In (l : list A) (x : A) : In x (JsArray.sort cmp l) <-> In x l.
Proof.
  split; intros H.
  - eapply Permutation_in; [symmetry; apply sort_perm | exact H].
  - eapply Permutation_in; [apply sort_perm | exact H].
Qed.

(** When the comparator is a difference of keys on the elements at hand,
    the result is in ascending key order. *)
Variable key : A -> Z.

Lemma insert_sorted (x : A) (l : list A) :
  (forall y, In y l -> cmp x y = key x - key y) ->
  StronglySorted (fun a b => key a <= key b) l ->
  StronglySorted (fun a b => key a <= key b) (JsArray.insert cmp x l).
Proof.
  intros Hcmp Hl. induction Hl as [|y l Hl IH Hy]; simpl.
  - repeat constructor.
  - rewrite (Hcmp y (or_introl eq_refl)).
    destruct (Z.leb_spec (key x - key y) 0) as [Hle|Hgt].
    + constructor; [now constructor|].
      constructor; [lia|].
      eapply List.Forall_impl; [|exact Hy]. simpl. intros; lia.
    + constructor.
      * apply IH. intros z Hz. apply Hcmp. now right.
      * eapply Permutation_Forall; [apply insert_perm|].
        constructor; [lia | exact Hy].
Qed.

Lemma sort_sorted (l : list A) :
  (forall x y, In x l -> In y l -> cmp x y = key x - key y) ->
  StronglySorted (fun a b => key a <= key b) (JsArray.sort cmp l).
Proof.
  induction l as [|x l IH]; intros Hcmp; simpl; [constructor|].
  apply insert_sorted.
  - intros y Hy. apply Hcmp; [now left|]. right. exact (proj1 (sort_In l y) Hy).
  - apply IH. intros a b Ha Hb. apply Hcmp; now right.
Qed.

End SortFacts.

Lemma In_firstn {A} (n : nat) (l : list A) (x : A) : In x (firstn n l) -> In x l.
Proof.
  intros H. rewrite <- (firstn_skipn n l). apply in_or_app. now left.
Qed.

Lemma StronglySorted_firstn {A} (R : A -> A -> Prop) (n : nat) (l : list A) :
  StronglySorted R l -> StronglySorted R (firstn n l).
Proof.
  intros Hl. revert n. induction Hl as [|x l Hl IH Hx]; intros [|n]; simpl;
    try constructor; auto.
  rewrite List.Forall_forall in *. intros y Hy. apply Hx.
  now apply In_firstn in Hy.
Qed.

Lemma StronglySorted_map {A B} (R : A -> A -> Prop) (R' : B -> B -> Prop)
    (f : A -> B) (l : list A) :
  (forall a b, In a l -> In b l -> R a b -> R' (f a) (f b)) ->
  StronglySorted R l -> StronglySorted R' (map f l).
Proof.
  intros HR Hl. induction Hl as [|x l Hl IH Hx]; simpl; constructor.
  - apply IH. intros a b Ha Hb. apply HR; now right.
  - rewrite List.Forall_forall in *. intros y Hy.
    apply in_map_iff in Hy. destruct Hy as [a [<- Ha]].
    apply HR; [now left | now right | now apply Hx].
Qed.

(** ** Queries *)

Lemma find_none_iff {A} (q : A -> bool) (l : list A) :
  List.find q l = None <-> (forall x, In x l -> q x = false).
Proof.
  split.
  - intros H x Hx. exact (find_none q l H x Hx).
  - induction l as [|a l IH]; intros H; simpl; [reflexivity|].
    rewrite (H a (or_introl eq_refl)). apply IH.
    intros x Hx. apply H. now right.
Qed.

Lemma q_owned_true (id userId : ObjectId) (d : Subscription.t) :
  q_owned id userId d = true <->
  Subscription._id d = id /\ Subscription.user d = userId.
Proof.
  unfold q_owned. rewrite andb_true_iff, !N.eqb_eq. reflexivity.
Qed.

Lemma q_active_true (userId : ObjectId) (d : Subscription.t) :
  q_active userId d = true <->
  Subscription.user d = userId /\ Subscription.isActive d = true.
Proof.
  unfold q_active. rewrite andb_true_iff, N.eqb_eq.
  destruct (Subscription.isActive d); simpl; intuition congruence.
Qed.

Lemma find_active_In (db : list Subscription.t) (userId : ObjectId)
    (d : Subscription.t) :
  In d (Subscription.find (q_active userId) db) <->
  In d db /\ Subscription.user d = userId /\ Subscription.isActive d = true.
Proof.
  unfold Subscription.find. rewrite filter_In, q_active_true. reflexivity.
Qed.

Lemma listed_In (db : list Subscription.t) (userId : ObjectId) (d : Subscription.t) :
  In d (listed (get_subscriptions db userId)) <->
  In d db /\ Subscription.user d = userId /\ Subscription.isActive d = true.
Proof.
  unfold listed, get_subscriptions, Subscription.sort_createdAt_desc; simpl.
  rewrite sort_In. apply find_active_In.
Qed.

Lemma find_active_filter_isActive (db : list Subscription.t) (userId : ObjectId) :
  Subscription.find (q_active userId) (List.filter Subscription.isActive db) =
  Subscription.find (q_active userId) db.
Proof.
  unfold Subscription.find. induction db as [|d db IH]; simpl; [reflexivity|].
  destruct (Subscription.isActive d) eqn:A; simpl.
  - now rewrite IH.
  - rewrite IH. unfold q_active at 2. rewrite A.
    now rewrite andb_false_r.
Qed.

(** [findOneAndUpdate] replaces the first match, in place. *)
Lemma findOneAndUpdate_Some (q : Subscription.t -> bool) (u : Body.t)
    (db : list Subscription.t) (d : Subscription.t) :
  Subscription.findOne q db = Some d ->
  exists l1 l2,
    db = (l1 ++ d :: l2)%list
    /\ Subscription.findOneAndUpdate q u db =
         (Some (Subscription.set u d), (l1 ++ Subscription.set u d :: l2)%list).
Proof.
  unfold Subscription.findOne.
  induction db as [|x db IH]; simpl; [discriminate|].
  destruct (q x) eqn:Q.
  - intros [= ->]. exists [], db. split; reflexivity.
  - intros H. destruct (IH H) as [l1 [l2 [E1 E2]]].
    exists (x :: l1), l2. rewrite E2. split; [now rewrite E1 | reflexivity].
Qed.

Lemma findOneAndUpdate_None (q : Subscription.t -> bool) (u : Body.t)
    (db : list Subscription.t) :
  Subscription.findOne q db = None ->
  Subscription.findOneAndUpdate q u db = (None, db).
Proof.
  unfold Subscription.findOne.
  induction db as [|x db IH]; simpl; [reflexivity|].
  destruct (q x); [discriminate|]. intros H. now rewrite (IH H).
Qed.

(** What [findOneAndUpdate] leaves in the collection that was not there is
    the updated document. *)
Lemma findOneAndUpdate_new (q : Subscription.t -> bool) (u : Body.t)
    (db : list Subscription.t) (x : Subscription.t) :
  In x (snd (Subscription.findOneAndUpdate q u db)) -> ~ In x db ->
  exists d, Subscription.findOne q db = Some d /\ x = Subscription.set u d.
Proof.
  intros Hin Hnot.
  destruct (Subscription.findOne q db) as [d|] eqn:F.
  - exists d. split; [reflexivity|].
    destruct (findOneAndUpdate_Some q u db d F) as [l1 [l2 [E1 E2]]].
    rewrite E2 in Hin. simpl in Hin. subst db.
    apply in_app_or in Hin. destruct Hin as [Hin|[Hin|Hin]].
    + exfalso. apply Hnot. apply in_or_app. now left.
    + now symmetry.
    + exfalso. apply Hnot. apply in_or_app. right. now right.
  - rewrite (findOneAndUpdate_None q u db F) in Hin. contradiction.
Qed.

Lemma set_written (u : Body.t) (d : Subscription.t) : written u (Subscription.set u d).
Proof.
  unfold written, Subscription.set; simpl.
  repeat split; intros v ->; reflexivity.
Qed.

(** ** The reducers *)

Lemma totals_step_monthlyCost (acc : Totals) (sub : Subscription.t) :
  totals_step acc sub =
  {| monthly := (monthly acc + Subscription.monthlyCost sub)%float;
     yearly := (yearly acc + Subscription.monthlyCost sub * 12)%float |}.
Proof. reflexivity. Qed.

Lemma breakdown_step_monthlyCost (acc : gmap string float) (sub : Subscription.t) :
  breakdown_step acc sub =
  <[ Subscription.category sub :=
       (JsNum.or_zero (acc !! Subscription.category sub)
        + Subscription.monthlyCost sub)%float ]> acc.
Proof. reflexivity. Qed.

Lemma fold_totals_step (l : list Subscription.t) (acc : Totals) :
  fold_left totals_step l acc =
  {| monthly := fold_left PrimFloat.add (map Subscription.monthlyCost l) (monthly acc);
     yearly := fold_left PrimFloat.add
                 (map (fun s => (Subscription.monthlyCost s * 12)%float) l)
                 (yearly acc) |}.
Proof.
  revert acc; induction l as [|s l IH]; intros acc; simpl.
  - now destruct acc.
  - rewrite IH, totals_step_monthlyCost. reflexivity.
Qed.

Lemma reduce_totals_fsum (l : list Subscription.t) :
  reduce_totals l =
  {| monthly := JsNum.fsum (map Subscription.monthlyCost l);
     yearly := JsNum.fsum (map (fun s => (Subscription.monthlyCost s * 12)%float) l) |}.
Proof. unfold reduce_totals. now rewrite fold_totals_step. Qed.

Lemma or_zero_is_positive (acc : gmap string float) (k : string) :
  positive_values acc -> positive_class (Prim2SF (JsNum.or_zero (acc !! k))).
Proof.
  intros Hacc. destruct (acc !! k) as [v|] eqn:E; [|exact I].
  rewrite (or_zero_positive v); eauto.
Qed.

Lemma breakdown_step_positive (acc : gmap string float) (sub : Subscription.t) :
  Subscription.cost_valid (Subscription.cost sub) = true ->
  positive_values acc -> positive_values (breakdown_step acc sub).
Proof.
  intros Hc Hacc k v. rewrite breakdown_step_monthlyCost.
  destruct (decide (Subscription.category sub = k)) as [->|Hne].
  - rewrite lookup_insert_eq. intros [= <-].
    apply add_positive; [now apply or_zero_is_positive | now apply monthlyCost_nonneg].
  - rewrite lookup_insert_ne by exact Hne. apply Hacc.
Qed.

(** The entry of a category after the fold: untouched when the list has no
    subscription of the category, and otherwise the running sum of their
    monthly costs, started from the entry the accumulator had. *)
Lemma fold_breakdown_lookup (l : list Subscription.t) (acc : gmap string float)
    (c : string) :
  Forall (fun s => Subscription.cost_valid (Subscription.cost s) = true) l ->
  positive_values acc ->
  fold_left breakdown_step l acc !! c =
    match List.filter (in_category c) l with
    | [] => acc !! c
    | in_c =>
        Some (fold_left PrimFloat.add (map Subscription.monthlyCost in_c)
                (JsNum.or_zero (acc !! c)))
    end.
Proof.
  intros Hl. revert acc. induction Hl as [|s l Hs Hl IH]; intros acc Hacc.
  - reflexivity.
  - simpl fold_left. rewrite IH by now apply breakdown_step_positive.
    simpl List.filter. unfold in_category at 2.
    destruct (String.eqb_spec (Subscription.category s) c) as [E|E].
    + rewrite breakdown_step_monthlyCost, E, lookup_insert_eq.
      rewrite or_zero_positive.
      2:{ apply add_positive; [now apply or_zero_is_positive
                              | now apply monthlyCost_nonneg]. }
      destruct (List.filter (in_category c) l); reflexivity.
    + rewrite breakdown_step_monthlyCost, lookup_insert_ne by exact E.
      reflexivity.
Qed.

Lemma fold_breakdown_keeps (l : list Subscription.t) (acc : gmap string float)
    (k : string) :
  is_Some (acc !! k) -> is_Some (fold_left breakdown_step l acc !! k).
Proof.
  revert acc. induction l as [|s l IH]; intros acc Hk; simpl; [exact Hk|].
  apply IH. rewrite breakdown_step_monthlyCost.
  destruct (decide (Subscription.category s = k)) as [->|Hne].
  - rewrite lookup_insert_eq. eauto.
  - now rewrite lookup_insert_ne.
Qed.

Lemma fold_breakdown_is_Some (l : list Subscription.t) (acc : gmap string float)
    (sub : Subscription.t) :
  In sub l -> is_Some (fold_left breakdown_step l acc !! Subscription.category sub).
Proof.
  revert acc. induction l as [|s l IH]; intros acc [].
  - subst s. simpl. apply fold_breakdown_keeps.
    rewrite breakdown_step_monthlyCost, lookup_insert_eq. eauto.
  - simpl. now apply IH.
Qed.

(** ** Upcoming renewals *)

Lemma renews_soon_true (now : Date) (sub : Subscription.t) :
  renews_soon now sub = true <->
  exists d, Subscription.renewalDate sub = Some d
            /\ d <= now + 30 * 24 * 60 * 60 * 1000.
Proof.
  unfold renews_soon, thirtyDaysLater.
  destruct (Subscription.renewalDate sub) as [d|].
  - rewrite Z.leb_le. split.
    + intros H. exists d. split; [reflexivity | exact H].
    + intros [d' [[= <-] H]]. exact H.
  - split; [discriminate | intros [d [[=] _]]].
Qed.

Lemma upcoming_In (now : Date) (l : list Subscription.t) (sub : Subscription.t) :
  In sub (upcoming now l) -> In sub l /\ renews_soon now sub = true.
Proof.
  unfold upcoming, JsArray.slice0. intros H.
  apply In_firstn, sort_In in H. now apply filter_In in H.
Qed.

Lemma soon_sorted (now : Date) (l : list Subscription.t) :
  StronglySorted (fun a b => renewal_key a <= renewal_key b)
    (JsArray.sort by_renewalDate (List.filter (renews_soon now) l)).
Proof.
  apply sort_sorted. intros a b Ha Hb.
  apply filter_In in Ha, Hb. destruct Ha as [_ Ha], Hb as [_ Hb].
  apply renews_soon_true in Ha, Hb.
  destruct Ha as [x [Ha _]], Hb as [y [Hb _]].
  unfold by_renewalDate, renewal_key. now rewrite Ha, Hb.
Qed.

Lemma upcoming_sorted (now : Date) (l : list Subscription.t) :
  StronglySorted (fun a b => renewal_key a <= renewal_key b) (upcoming now l).
Proof. apply StronglySorted_firstn, soon_sorted. Qed.

(** ** The writing handlers *)

Lemma put_subscription_matched (db : list Subscription.t) (userId id : ObjectId)
    (body : Body.t) (now : Date) (d : Subscription.t) :
  Subscription.findOne (q_owned id userId) db = Some d ->
  put_checks body = [] ->
  Subscription.validate_update (with_updatedAt (sanitized body) now) = true ->
  exists l1 l2,
    db = (l1 ++ d :: l2)%list
    /\ put_subscription db userId id body now =
         (ok (Some "Subscription updated successfully")
             (OneSubscription
                (Subscription.set (with_updatedAt (sanitized body) now) d)),
          (l1 ++ Subscription.set (with_updatedAt (sanitized body) now) d :: l2)%list).
Proof.
  intros Hfind Hchecks Hvalid.
  destruct (findOneAndUpdate_Some _ (with_updatedAt (sanitized body) now) _ _ Hfind)
    as [l1 [l2 [E1 E2]]].
  exists l1, l2. split; [exact E1|].
  unfold put_subscription. rewrite Hchecks, Hvalid, E2. reflexivity.
Qed.

Lemma delete_subscription_matched (db : list Subscription.t) (userId id : ObjectId)
    (now : Date) (d : Subscription.t) :
  Subscription.findOne (q_owned id userId) db = Some d ->
  exists l1 l2,
    db = (l1 ++ d :: l2)%list
    /\ delete_subscription db userId id now =
         (ok (Some "Subscription deleted successfully") NoPayload,
          (l1 ++ Subscription.set (soft_delete now) d :: l2)%list).
Proof.
  intros Hfind.
  destruct (findOneAndUpdate_Some _ (soft_delete now) _ _ Hfind)
    as [l1 [l2 [E1 E2]]].
  exists l1, l2. split; [exact E1|].
  unfold delete_subscription. now rewrite E2.
Qed.

(** A create request changes nothing, or answers 201 and appends the
    document as the [pre('save')] hook left it. *)
Lemma post_subscription_cases (db : list Subscription.t) (userId : ObjectId)
    (body : Body.t) (oid : ObjectId) (t_new t_save : Date) :
  (exists r, post_subscription db userId body oid t_new t_save = (r, db)
             /\ status r <> 201%nat)
  \/ (exists d, post_subscription db userId body oid t_new t_save =
                  (created d, (db ++ [d])%list)
                /\ Subscription.updatedAt d = t_save).
Proof.
  unfold post_subscription.
  destruct (post_checks body) as [|e errors].
  - destruct (Subscription.construct _ _ _) as [s|].
    + unfold Subscription.save.
      destruct (Subscription.validate s).
      * destruct (existsb _ db).
        -- left. eexists. split; [reflexivity | discriminate].
        -- right. eexists. split; reflexivity.
      * left. eexists. split; [reflexivity | discriminate].
    + left. eexists. split; [reflexivity | discriminate].
  - left. eexists. split; [reflexivity | discriminate].
Qed.

Lemma put_subscription_new (db : list Subscription.t) (userId id : ObjectId)
    (body : Body.t) (now : Date) (x : Subscription.t) :
  In x (snd (put_subscription db userId id body now)) -> ~ In x db ->
  Subscription.updatedAt x = now.
Proof.
  unfold put_subscription.
  destruct (put_checks body); [|simpl; contradiction].
  destruct (Subscription.validate_update _); [|simpl; contradiction].
  destruct (Subscription.findOneAndUpdate _ _ db) as [[s|] db'] eqn:E;
    [|simpl; contradiction].
  simpl. intros Hin Hnot.
  pose proof (findOneAndUpdate_new (q_owned id userId)
                (with_updatedAt (sanitized body) now) db x) as H.
  rewrite E in H. destruct (H Hin Hnot) as [d [_ ->]]. reflexivity.
Qed.

Lemma delete_subscription_new (db : list Subscription.t) (userId id : ObjectId)
    (now : Date) (x : Subscription.t) :
  In x (snd (delete_subscription db userId id now)) -> ~ In x db ->
  Subscription.updatedAt x = now.
Proof.
  unfold delete_subscription.
  destruct (Subscription.findOneAndUpdate _ _ db) as [[s|] db'] eqn:E;
    [|simpl; contradiction].
  simpl. intros Hin Hnot.
  pose proof (findOneAndUpdate_new (q_owned id userId) (soft_delete now) db x) as H.
  rewrite E in H. destruct (H Hin Hnot) as [d [_ ->]]. reflexivity.
Qed.

(** ** Schema validity is kept by every write *)

Lemma validate_pre_save (now : Date) (d : Subscription.t) :
  Subscription.validate (Subscription.pre_save now d) = Subscription.validate d.
Proof. reflexivity. Qed.

Lemma validate_set (u : Body.t) (d : Subscription.t) :
  Subscription.validate d = true -> Subscription.validate_update u = true ->
  Subscription.validate (Subscription.set u d) = true.
Proof.
  unfold Subscription.validate, Subscription.validate_update, Subscription.set.
  rewrite !andb_true_iff. simpl.
  intros [[[[[H1 H2] H3] H4] H5] H6] [[[[[U1 U2] U3] U4] U5] U6].
  destruct (Body.name u), (Body.cost u), (Body.billingCycle u),
    (Body.category u), (Body.color u), (Body.notes u); simpl in *; auto 10.
Qed.

Lemma findOneAndUpdate_valid (q : Subscription.t -> bool) (u : Body.t)
    (db : list Subscription.t) :
  Subscription.validate_update u = true ->
  schema_valid db ->
  schema_valid (snd (Subscription.findOneAndUpdate q u db)).
Proof.
  unfold schema_valid. intros Hu Hdb. induction Hdb as [|d db Hd Hdb IH]; simpl; [constructor|].
  destruct (q d).
  - simpl. constructor; [now apply validate_set | exact Hdb].
  - destruct (Subscription.findOneAndUpdate q u db) as [r db'].
    simpl in *. now constructor.
Qed.

Lemma writes_keep_validity (db : list Subscription.t) :
  schema_valid db ->
  (forall userId body oid t_new t_save,
      schema_valid (snd (post_subscription db userId body oid t_new t_save)))
  /\ (forall userId id body now,
        schema_valid (snd (put_subscription db userId id body now)))
  /\ (forall userId id now,
        schema_valid (snd (delete_subscription db userId id now))).
Proof.
  unfold schema_valid. intros Hdb. split; [|split].
  - intros userId body oid t_new t_save. unfold post_subscription.
    destruct (post_checks body); [|exact Hdb].
    destruct (Subscription.construct _ _ _) as [s|]; [|exact Hdb].
    unfold Subscription.save.
    destruct (Subscription.validate s) eqn:V; [|exact Hdb].
    destruct (existsb _ db); [exact Hdb|]. simpl.
    apply Forall_app. split; [exact Hdb|]. constructor; [|constructor].
    now rewrite validate_pre_save.
  - intros userId id body now. unfold put_subscription.
    destruct (put_checks body); [|exact Hdb].
    destruct (Subscription.validate_update _) eqn:V; [|exact Hdb].
    pose proof (findOneAndUpdate_valid (q_owned id userId) _ db V Hdb) as H.
    destruct (Subscription.findOneAndUpdate _ _ db) as [[s|] db']; [exact H|exact Hdb].
  - intros userId id now. unfold delete_subscription.
    pose proof (findOneAndUpdate_valid (q_owned id userId) (soft_delete now) db
                  eq_refl Hdb) as H.
    destruct (Subscription.findOneAndUpdate _ _ db) as [[s|] db']; [exact H|exact Hdb].
Qed.

(* ===================================================================== *)
(** * The claims                                                          *)
(* ===================================================================== *)

(** ** Soft delete *)

(** C1: a soft-deleted subscription ([isActive = false]) is never in the
    list response, the stats response is the one computed without the
    soft-deleted documents, and DELETE keeps the record in the collection
    with [isActive = false].  The single-get endpoint does not follow: after
    user 7 deletes subscription 1, GET /api/subscriptions/1 still answers
    200 with that subscription, [isActive = false]. *)
Theorem soft_deleted_visibility :
  (forall db userId d,
      In d db -> Subscription.isActive d = false ->
      ~ In d (listed (get_subscriptions db userId)))
  /\ (forall db userId now,
        get_stats_overview db userId now =
        get_stats_overview (List.filter Subscription.isActive db) userId now)
  /\ (forall db userId id now d,
        Subscription.findOne (q_owned id userId) db = Some d ->
        exists d' l1 l2,
          db = (l1 ++ d :: l2)%list
          /\ snd (delete_subscription db userId id now) = (l1 ++ d' :: l2)%list
          /\ Subscription._id d' = Subscription._id d
          /\ Subscription.isActive d' = false)
  /\ (let gone := Sample.deleted (Sample.doc 1 7 12 "monthly" 1000) in
      let db' := snd (delete_subscription Sample.two_plans 7 1 5000) in
      In gone db'
      /\ Subscription.isActive gone = false
      /\ get_subscription db' 7 1 =
           {| status := 200; success := true; message := None;
              payload := OneSubscription gone |}).
Proof.
  split; [|split; [|split]].
  - intros db userId d _ Hd Hin. apply listed_In in Hin.
    destruct Hin as [_ [_ Hin]]. congruence.
  - intros db userId now. unfold get_stats_overview.
    now rewrite find_active_filter_isActive.
  - intros db userId id now d Hf.
    destruct (delete_subscription_matched db userId id now d Hf)
      as [l1 [l2 [E1 E2]]].
    eexists _, l1, l2. rewrite E2. repeat split. exact E1.
  - cbv zeta. split; [|split].
    + left. reflexivity.
    + reflexivity.
    + vm_compute. reflexivity.
Qed.

(** ** Monthly cost *)

(** C2: the derived monthly cost is [cost / 12] for a yearly subscription
    and [cost] for any other billing cycle; the virtual field of the model,
    the reducer of the list totals and the reducer of the category
    breakdown all compute this same value. *)
Theorem monthlyCost_by_cycle (sub : Subscription.t) :
  Subscription.monthlyCost sub =
    (if decide (Subscription.billingCycle sub = "yearly")
     then (Subscription.cost sub / 12)%float else Subscription.cost sub)
  /\ (forall acc : Totals,
        totals_step acc sub =
        {| monthly := (monthly acc + Subscription.monthlyCost sub)%float;
           yearly := (yearly acc + Subscription.monthlyCost sub * 12)%float |})
  /\ (forall acc : gmap string float,
        breakdown_step acc sub =
        <[ Subscription.category sub :=
             (JsNum.or_zero (acc !! Subscription.category sub)
              + Subscription.monthlyCost sub)%float ]> acc).
Proof.
  split; [|split].
  - unfold Subscription.monthlyCost.
    destruct (String.eqb_spec (Subscription.billingCycle sub) "yearly") as [E|E];
      destruct (decide _); congruence.
  - intros acc. apply totals_step_monthlyCost.
  - intros acc. apply breakdown_step_monthlyCost.
Qed.

(** ** GET /api/subscriptions: totals *)

(** C3 (as stated, refuted): on [Sample.small_plans] the accumulated
    [yearly] is not [monthly * 12]; the response prints [yearly] as 1.50
    where [monthly * 12] prints as 1.51. *)
Lemma yearly_total_differs_from_monthly_times_12 :
  let subs := Subscription.sort_createdAt_desc
                (Subscription.find (q_active 7) Sample.small_plans) in
  let acc := reduce_totals subs in
  yearly acc <> (monthly acc * 12)%float
  /\ payload (get_subscriptions Sample.small_plans 7) =
       Subscriptions 2 subs
         {| monthly := JsNum.parseFloat (JsNum.Digits false 13);
            yearly := JsNum.parseFloat (JsNum.Digits false 150) |}
  /\ JsNum.toFixed2 (yearly acc) = JsNum.Digits false 150
  /\ JsNum.toFixed2 (monthly acc * 12) = JsNum.Digits false 151.
Proof.
  cbv zeta. split; [|split; [|split]].
  - apply float_neq. vm_compute. discriminate.
  - vm_compute. reflexivity.
  - vm_compute. reflexivity.
  - vm_compute. reflexivity.
Qed.

(** C3 (amended): the list endpoint returns the user's active
    subscriptions, newest first, with [totals.monthly] the left-to-right
    binary64 sum of [monthlyCost] over that list and [totals.yearly] the
    left-to-right binary64 sum of [monthlyCost * 12], accumulated on its
    own; each is rounded to 2 decimals only in the response.  On
    [{cost: 12, monthly}, {cost: 120, yearly}] the totals print as 22.00
    and 264.00. *)
Theorem list_totals_are_running_sums (db : list Subscription.t) (userId : ObjectId) :
  let subs := Subscription.sort_createdAt_desc
                (Subscription.find (q_active userId) db) in
  get_subscriptions db userId =
    {| status := 200; success := true; message := None;
       payload :=
         Subscriptions (length subs) subs
           {| monthly := JsNum.round2 (JsNum.fsum (map Subscription.monthlyCost subs));
              yearly := JsNum.round2
                          (JsNum.fsum
                             (map (fun s => (Subscription.monthlyCost s * 12)%float)
                                  subs)) |} |}
  /\ (let acc := reduce_totals
                   (Subscription.sort_createdAt_desc
                      (Subscription.find (q_active 7) Sample.two_plans)) in
      JsNum.toFixed2 (monthly acc) = JsNum.Digits false 2200
      /\ JsNum.toFixed2 (yearly acc) = JsNum.Digits false 26400
      /\ exists subs2,
          payload (get_subscriptions Sample.two_plans 7) =
            Subscriptions 2 subs2 {| monthly := 22; yearly := 264 |}).
Proof.
  cbv zeta. split.
  - unfold get_subscriptions. now rewrite reduce_totals_fsum.
  - split; [|split]; try (vm_compute; reflexivity).
    eexists. vm_compute. reflexivity.
Qed.

(** ** GET /api/subscriptions/stats/overview *)

(** C4: the upcoming renewals of the stats response are the first 5, in
    ascending order of renewal date, of the user's active subscriptions
    whose renewal date is defined and at most 30 days after now: at most 5
    entries, sorted, each the projection to
    [{id, name, renewalDate, cost, billingCycle}] of such a subscription.  A
    subscription without a renewal date is no entry of the list, yet it is
    listed by the list endpoint, counted in [totalSubscriptions], and has
    its category in the breakdown. *)
Theorem upcoming_renewals_are_soonest_five (db : list Subscription.t)
    (userId : ObjectId) (now : Date) :
  let active := Subscription.find (q_active userId) db in
  exists stats soon,
    get_stats_overview db userId now =
      {| status := 200; success := true; message := None;
         payload := StatsOverview stats |}
    /\ Permutation soon (List.filter (renews_soon now) active)
    /\ StronglySorted (fun a b => renewal_key a <= renewal_key b) soon
    /\ upcomingRenewals stats = map project (firstn 5 soon)
    /\ (length (upcomingRenewals stats) <= 5)%nat
    /\ StronglySorted
         (fun a b => exists x y, Renewal.renewalDate a = Some x
                                 /\ Renewal.renewalDate b = Some y /\ x <= y)
         (upcomingRenewals stats)
    /\ (forall r, In r (upcomingRenewals stats) ->
          exists sub d,
            In sub active
            /\ Subscription.renewalDate sub = Some d
            /\ d <= now + 30 * 24 * 60 * 60 * 1000
            /\ r = {| Renewal.id := Subscription._id sub;
                      Renewal.name := Subscription.name sub;
                      Renewal.renewalDate := Some d;
                      Renewal.cost := Subscription.cost sub;
                      Renewal.billingCycle := Subscription.billingCycle sub |})
    /\ (forall sub, In sub active -> Subscription.renewalDate sub = None ->
          (forall r, In r (upcomingRenewals stats) -> r <> project sub)
          /\ In sub (listed (get_subscriptions db userId))
          /\ totalSubscriptions stats = length active
          /\ is_Some (categoryBreakdown stats !! Subscription.category sub)).
Proof.
  intros active.
  exists (compute_stats now active),
         (JsArray.sort by_renewalDate (List.filter (renews_soon now) active)).
  split; [reflexivity|].
  split; [symmetry; apply sort_perm|].
  split; [apply soon_sorted|].
  split; [reflexivity|]. simpl.
  assert (Hentry : forall r, In r (map project (upcoming now active)) ->
            exists sub d, In sub active
              /\ Subscription.renewalDate sub = Some d
              /\ d <= now + 30 * 24 * 60 * 60 * 1000
              /\ r = {| Renewal.id := Subscription._id sub;
                        Renewal.name := Subscription.name sub;
                        Renewal.renewalDate := Some d;
                        Renewal.cost := Subscription.cost sub;
                        Renewal.billingCycle := Subscription.billingCycle sub |}).
  { intros r Hr. apply in_map_iff in Hr. destruct Hr as [sub [<- Hsub]].
    apply upcoming_In in Hsub. destruct Hsub as [Hin Hsoon].
    apply renews_soon_true in Hsoon. destruct Hsoon as [d [Hd Hle]].
    exists sub, d. split; [exact Hin|]. split; [exact Hd|]. split; [exact Hle|].
    unfold project. now rewrite Hd. }
  split; [|split; [|split; [exact Hentry|]]].
  - rewrite length_map. unfold upcoming, JsArray.slice0. apply firstn_le_length.
  - eapply StronglySorted_map; [|apply upcoming_sorted].
    intros a b Ha Hb Hab.
    apply upcoming_In in Ha, Hb. destruct Ha as [_ Ha], Hb as [_ Hb].
    apply renews_soon_true in Ha, Hb.
    destruct Ha as [x [Ha _]], Hb as [y [Hb _]].
    exists x, y. unfold renewal_key in Hab. rewrite Ha, Hb in Hab.
    simpl. auto.
  - intros sub Hin Hnone. split; [|split; [|split]].
    + intros r Hr ->. destruct (Hentry _ Hr) as [sub' [d [_ [_ [_ E]]]]].
      unfold project in E. rewrite Hnone in E. discriminate.
    + apply listed_In. now apply find_active_In.
    + reflexivity.
    + now apply fold_breakdown_is_Some.
Qed.

(** C5: on a collection of schema-valid documents (costs at least 0), the
    category breakdown of the stats response maps each category to the
    left-to-right sum of [monthlyCost] over the user's active subscriptions
    of that category, and has no entry for a category without one. *)
Theorem category_breakdown_sums (db : list Subscription.t) (userId : ObjectId)
    (now : Date) :
  schema_valid db ->
  exists stats,
    get_stats_overview db userId now =
      {| status := 200; success := true; message := None;
         payload := StatsOverview stats |}
    /\ forall c : string,
        categoryBreakdown stats !! c =
        match List.filter (in_category c) (Subscription.find (q_active userId) db) with
        | [] => None
        | in_c => Some (JsNum.fsum (map Subscription.monthlyCost in_c))
        end.
Proof.
  intros Hdb. eexists. split; [reflexivity|]. intros c. simpl.
  unfold reduce_breakdown. rewrite fold_breakdown_lookup.
  - rewrite lookup_empty. reflexivity.
  - unfold schema_valid in Hdb. rewrite List.Forall_forall in *.
    intros s Hs. apply filter_In in Hs. destruct Hs as [Hs _].
    specialize (Hdb s Hs). unfold Subscription.validate in Hdb.
    rewrite !andb_true_iff in Hdb. tauto.
  - intros k v. rewrite lookup_empty. discriminate.
Qed.

Lemma category_breakdown_sums_witness :
  schema_valid Sample.two_plans
  /\ exists stats,
      get_stats_overview Sample.two_plans 7 0 =
        {| status := 200; success := true; message := None;
           payload := StatsOverview stats |}
      /\ categoryBreakdown stats !! "other" = Some 22%float
      /\ categoryBreakdown stats !! "music" = None.
Proof.
  assert (H : schema_valid Sample.two_plans) by (repeat constructor).
  split; [exact H|].
  destruct (category_breakdown_sums Sample.two_plans 7 0 H) as [stats [E Hc]].
  exists stats. split; [exact E|]. split.
  - rewrite Hc. reflexivity.
  - rewrite Hc. reflexivity.
Defined.

(** C6: a user without active subscriptions gets, from the list endpoint,
    status 200 with no subscriptions and totals 0 and 0, and from the stats
    endpoint, status 200 with an empty category breakdown and an empty list
    of upcoming renewals. *)
Theorem empty_set_yields_zeros (db : list Subscription.t) (userId : ObjectId)
    (now : Date) :
  Subscription.find (q_active userId) db = [] ->
  get_subscriptions db userId =
    {| status := 200; success := true; message := None;
       payload := Subscriptions 0 [] {| monthly := 0; yearly := 0 |} |}
  /\ get_stats_overview db userId now =
    {| status := 200; success := true; message := None;
       payload := StatsOverview {| totalSubscriptions := 0;
                                   categoryBreakdown := ∅;
                                   upcomingRenewals := [] |} |}.
Proof.
  intros E. unfold get_subscriptions, get_stats_overview. rewrite E.
  split; reflexivity.
Qed.

Lemma empty_set_yields_zeros_witness :
  Subscription.find (q_active 7) (map Sample.deleted Sample.two_plans) = []
  /\ get_subscriptions (map Sample.deleted Sample.two_plans) 7 =
       {| status := 200; success := true; message := None;
          payload := Subscriptions 0 [] {| monthly := 0; yearly := 0 |} |}
  /\ get_stats_overview (map Sample.deleted Sample.two_plans) 7 0 =
       {| status := 200; success := true; message := None;
          payload := StatsOverview {| totalSubscriptions := 0;
                                      categoryBreakdown := ∅;
                                      upcomingRenewals := [] |} |}.
Proof.
  split; [reflexivity|].
  apply (empty_set_yields_zeros (map Sample.deleted Sample.two_plans) 7 0).
  reflexivity.
Defined.

(** ** POST /api/subscriptions: validation *)

(** C7: a create request whose cost is a negative number (for instance -1)
    is answered with status 400 and an [errors] array that holds the error
    of the [cost] field, and the collection is left as it was. *)
Theorem negative_cost_is_rejected (db : list Subscription.t) (userId : ObjectId)
    (body : Body.t) (oid : ObjectId) (t_new t_save : Date) (c : float) :
  Body.cost body = Some c ->
  (c <? 0)%float = true ->
  exists errors,
    post_subscription db userId body oid t_new t_save =
      ({| status := 400; success := false; message := None;
          payload := Errors errors |}, db)
    /\ In {| Validator.param := "cost";
             Validator.msg := "Cost must be a positive number" |} errors.
Proof.
  intros Hc Hneg.
  assert (Hin : In {| Validator.param := "cost";
                      Validator.msg := "Cost must be a positive number" |}
                   (post_checks body)).
  { unfold post_checks. rewrite Hc. simpl Validator.required at 2.
    rewrite (negative_not_isFloat_min0 c Hneg).
    apply in_or_app. right. left. reflexivity. }
  unfold post_subscription.
  destruct (post_checks body) as [|e errors] eqn:E.
  - destruct Hin.
  - exists (e :: errors). split; [reflexivity | exact Hin].
Qed.

Lemma negative_cost_is_rejected_witness :
  exists errors,
    post_subscription Sample.two_plans 7 (Sample.netflix (-1)) 3 3000 3001 =
      ({| status := 400; success := false; message := None;
          payload := Errors errors |}, Sample.two_plans)
    /\ In {| Validator.param := "cost";
             Validator.msg := "Cost must be a positive number" |} errors.
Proof.
  apply (negative_cost_is_rejected Sample.two_plans 7 (Sample.netflix (-1))
           3 3000 3001 (-1)%float); reflexivity.
Defined.

(** ** GET /api/subscriptions/:id *)

(** C8: when every document that carries the requested id belongs to
    another user, the single-get endpoint answers 404 with the message
    "Subscription not found", and that response is the very one it gives in
    a collection where no document carries the id. *)
Theorem foreign_id_looks_missing (db1 db2 : list Subscription.t)
    (requester id : ObjectId) :
  (forall d, In d db1 -> Subscription._id d = id ->
             Subscription.user d <> requester) ->
  (forall d, In d db2 -> Subscription._id d <> id) ->
  get_subscription db1 requester id =
    {| status := 404; success := false;
       message := Some "Subscription not found"; payload := NoPayload |}
  /\ get_subscription db1 requester id = get_subscription db2 requester id.
Proof.
  intros H1 H2.
  assert (E1 : Subscription.findOne (q_owned id requester) db1 = None).
  { apply find_none_iff. intros d Hd.
    destruct (q_owned id requester d) eqn:Q; [|reflexivity].
    apply q_owned_true in Q. destruct Q as [Qi Qu].
    exfalso. exact (H1 d Hd Qi Qu). }
  assert (E2 : Subscription.findOne (q_owned id requester) db2 = None).
  { apply find_none_iff. intros d Hd.
    destruct (q_owned id requester d) eqn:Q; [|reflexivity].
    apply q_owned_true in Q. destruct Q as [Qi _].
    exfalso. exact (H2 d Hd Qi). }
  unfold get_subscription. rewrite E1, E2. split; reflexivity.
Qed.

Lemma foreign_id_looks_missing_witness :
  In (Sample.doc 1 7 12 "monthly" 1000) Sample.two_plans
  /\ get_subscription Sample.two_plans 8 1 =
       {| status := 404; success := false;
          message := Some "Subscription not found"; payload := NoPayload |}
  /\ get_subscription Sample.two_plans 8 1 = get_subscription [] 8 1.
Proof.
  split; [left; reflexivity|].
  apply (foreign_id_looks_missing Sample.two_plans [] 8 1).
  - intros d [<-|[<-|[]]]; simpl; intros; discriminate.
  - intros d [].
Defined.

(** ** Writes *)

(** C9: every write refreshes [updatedAt].  A create that answers 201
    appends a document whose [updatedAt] is the clock read by the
    [pre('save')] hook; an update that passes validation, and a soft
    delete, replace the matched document by one whose [updatedAt] is the
    current time; and whatever document a create, an update or a delete
    leaves in the collection that was not there before carries that time. *)
Theorem writes_refresh_updatedAt :
  (forall db userId body oid t_new t_save r db',
      post_subscription db userId body oid t_new t_save = (r, db') ->
      (status r = 201%nat ->
       exists d, payload r = OneSubscription d /\ db' = (db ++ [d])%list
                 /\ Subscription.updatedAt d = t_save)
      /\ (forall x, In x db' -> ~ In x db -> Subscription.updatedAt x = t_save))
  /\ (forall db userId id body now,
        (forall d,
           Subscription.findOne (q_owned id userId) db = Some d ->
           put_checks body = [] ->
           Subscription.validate_update (with_updatedAt (sanitized body) now) = true ->
           exists d' l1 l2,
             db = (l1 ++ d :: l2)%list
             /\ put_subscription db userId id body now =
                  (ok (Some "Subscription updated successfully") (OneSubscription d'),
                   (l1 ++ d' :: l2)%list)
             /\ Subscription.updatedAt d' = now)
        /\ (forall x, In x (snd (put_subscription db userId id body now)) ->
                      ~ In x db -> Subscription.updatedAt x = now))
  /\ (forall db userId id now,
        (forall d,
           Subscription.findOne (q_owned id userId) db = Some d ->
           exists d' l1 l2,
             db = (l1 ++ d :: l2)%list
             /\ delete_subscription db userId id now =
                  (ok (Some "Subscription deleted successfully") NoPayload,
                   (l1 ++ d' :: l2)%list)
             /\ Subscription.isActive d' = false
             /\ Subscription.updatedAt d' = now)
        /\ (forall x, In x (snd (delete_subscription db userId id now)) ->
                      ~ In x db -> Subscription.updatedAt x = now)).
Proof.
  split; [|split].
  - intros db userId body oid t_new t_save r db' E.
    destruct (post_subscription_cases db userId body oid t_new t_save)
      as [[r0 [E0 Hr0]]|[d [E0 Hd]]]; rewrite E0 in E; injection E as <- <-.
    + split; [intros H; contradiction|]. intros x Hx Hnx. contradiction.
    + split.
      * intros _. exists d. repeat split. exact Hd.
      * intros x Hx Hnx. apply in_app_or in Hx.
        destruct Hx as [Hx|[<-|[]]]; [contradiction | exact Hd].
  - intros db userId id body now. split.
    + intros d Hf Hc Hv.
      destruct (put_subscription_matched db userId id body now d Hf Hc Hv)
        as [l1 [l2 [E1 E2]]].
      eexists _, l1, l2. split; [exact E1|]. split; [exact E2 | reflexivity].
    + apply put_subscription_new.
  - intros db userId id now. split.
    + intros d Hf.
      destruct (delete_subscription_matched db userId id now d Hf)
        as [l1 [l2 [E1 E2]]].
      eexists _, l1, l2. split; [exact E1|]. split; [exact E2|]. split; reflexivity.
    + apply delete_subscription_new.
Qed.

Lemma writes_refresh_updatedAt_witness :
  let out := post_subscription Sample.two_plans 7 (Sample.netflix 16) 3 3000 3001 in
  status (fst out) = 201%nat
  /\ Body.updatedAt (Sample.netflix 16) = Some 5
  /\ exists d, payload (fst out) = OneSubscription d
               /\ snd out = (Sample.two_plans ++ [d])%list
               /\ Subscription.updatedAt d = 3001.
Proof.
  cbv zeta. split; [reflexivity|]. split; [reflexivity|].
  destruct writes_refresh_updatedAt as [Hpost _].
  refine (proj1 (Hpost Sample.two_plans 7%N (Sample.netflix 16) 3%N 3000 3001
                   _ _ (surjective_pairing _)) _).
  reflexivity.
Defined.

(** C10 (as stated, refuted): the update request [{ updatedAt: 5 }] is
    answered 200, and the document it wrote has the server's time 9000 as
    [updatedAt], not the 5 of the body. *)
Lemma put_overrides_updatedAt_of_body :
  exists d' db',
    put_subscription Sample.two_plans 7 1 Sample.only_updatedAt 9000 =
      (ok (Some "Subscription updated successfully") (OneSubscription d'), db')
    /\ In d' db'
    /\ Body.updatedAt Sample.only_updatedAt = Some 5
    /\ Subscription.updatedAt d' = 9000
    /\ ~ written Sample.only_updatedAt d'.
Proof.
  eexists _, _. split; [vm_compute; reflexivity|].
  split; [left; reflexivity|]. split; [reflexivity|]. split; [reflexivity|].
  intros W. destruct W as (_ & _ & _ & _ & _ & _ & _ & _ & _ & _ & W).
  specialize (W 5 eq_refl). discriminate W.
Qed.

(** C10 (amended): the update matches on [_id] and [user] alone, whatever
    [isActive] is.  When a document matches and the request passes
    validation, the answer is 200 and the document is replaced, in place, by
    itself with every path of [{ ...body, updatedAt: now }] written to it
    ([name] trimmed): among them [isActive], [user] and [createdAt], which
    no rule of the route checks, so that an update reactivates a
    soft-deleted subscription or hands it to another owner; [updatedAt] is
    the server's time, whatever the body holds. *)
Theorem put_writes_every_path_of_the_update (db : list Subscription.t)
    (userId id : ObjectId) (body : Body.t) (now : Date) (d : Subscription.t) :
  Subscription.findOne (q_owned id userId) db = Some d ->
  put_checks body = [] ->
  Subscription.validate_update (with_updatedAt (sanitized body) now) = true ->
  exists d' l1 l2,
    db = (l1 ++ d :: l2)%list
    /\ put_subscription db userId id body now =
         (ok (Some "Subscription updated successfully") (OneSubscription d'),
          (l1 ++ d' :: l2)%list)
    /\ written (with_updatedAt (sanitized body) now) d'
    /\ (forall v, Body.isActive body = Some v -> Subscription.isActive d' = v)
    /\ (forall v, Body.user body = Some v -> Subscription.user d' = v)
    /\ (forall v, Body.createdAt body = Some v -> Subscription.createdAt d' = v)
    /\ (forall v, Body.name body = Some v ->
                  Subscription.name d' = Validator.trim v)
    /\ Subscription.updatedAt d' = now.
Proof.
  intros Hf Hc Hv.
  destruct (put_subscription_matched db userId id body now d Hf Hc Hv)
    as [l1 [l2 [E1 E2]]].
  eexists _, l1, l2. split; [exact E1|]. split; [exact E2|].
  split; [apply set_written|].
  simpl. repeat split; intros v ->; reflexivity.
Qed.

Lemma put_writes_every_path_of_the_update_witness :
  let db := map Sample.deleted Sample.two_plans in
  let d := Sample.deleted (Sample.doc 1 7 12 "monthly" 1000) in
  Subscription.findOne (q_owned 1 7) db = Some d
  /\ Subscription.isActive d = false
  /\ exists d' l1 l2,
      db = (l1 ++ d :: l2)%list
      /\ put_subscription db 7 1 Sample.reactivate_for_8 9000 =
           (ok (Some "Subscription updated successfully") (OneSubscription d'),
            (l1 ++ d' :: l2)%list)
      /\ Subscription.isActive d' = true
      /\ Subscription.user d' = 8%N
      /\ Subscription.updatedAt d' = 9000.
Proof.
  cbv zeta. split; [reflexivity|]. split; [reflexivity|].
  destruct (put_writes_every_path_of_the_update
              (map Sample.deleted Sample.two_plans) 7 1
              Sample.reactivate_for_8 9000
              (Sample.deleted (Sample.doc 1 7 12 "monthly" 1000))
              eq_refl eq_refl eq_refl)
    as (d' & l1 & l2 & E1 & E2 & _ & Ha & Hu & _ & _ & Ht).
  exists d', l1, l2. split; [exact E1|]. split; [exact E2|].
  split; [apply Ha; reflexivity|]. split; [apply Hu; reflexivity | exact Ht].
Defined.

(* ===================================================================== *)
(** * Further properties of the routes                                    *)
(* ===================================================================== *)

(** ** Validation chains *)

Lemma required_nil {T} (p m : string) (ok : T -> bool) (v : option T) :
  Validator.required p m ok v = [] <-> exists x, v = Some x /\ ok x = true.
Proof.
  unfold Validator.required, Validator.invalid. split.
  - destruct v as [x|]; [|discriminate].
    destruct (ok x) eqn:E; [|discriminate]. intros _. now exists x.
  - intros [x [-> ->]]. reflexivity.
Qed.

Lemma optional_nil {T} (p m : string) (ok : T -> bool) (v : option T) :
  Validator.optional p m ok v = [] <-> Subscription.opt ok v = true.
Proof.
  unfold Validator.optional, Validator.invalid, Subscription.opt.
  destruct v as [x|]; [|tauto]. destruct (ok x); split; congruence.
Qed.

(** The create requests the chains let through. *)
Lemma post_checks_nil (body : Body.t) :
  post_checks body = [] <->
  (exists n, Body.name body = Some n
             /\ Validator.notEmpty (Validator.trim n) = true)
  /\ (exists c, Body.cost body = Some c /\ Validator.isFloat_min0 c = true)
  /\ (exists bc, Body.billingCycle body = Some bc
                 /\ Subscription.billingCycle_valid bc = true)
  /\ Subscription.opt Subscription.category_valid (Body.category body) = true.
Proof.
  unfold post_checks.
  rewrite !app_nil, !required_nil, optional_nil.
  split.
  - intros ([x [Hx Hok]] & Hc & Hb & Hcat).
    repeat split; try assumption.
    destruct (Body.name body) as [n|]; [|discriminate].
    exists n. split; [reflexivity|]. simpl in Hx. now injection Hx as <-.
  - intros ([n [Hn Hok]] & Hc & Hb & Hcat).
    repeat split; try assumption.
    exists (Validator.trim n). rewrite Hn. split; [reflexivity | exact Hok].
Qed.

(** The update requests the chains let through. *)
Lemma put_checks_nil (body : Body.t) :
  put_checks body = [] <->
  Subscription.opt (fun n => Validator.notEmpty (Validator.trim n)) (Body.name body) = true
  /\ Subscription.opt Validator.isFloat_min0 (Body.cost body) = true
  /\ Subscription.opt Subscription.billingCycle_valid (Body.billingCycle body) = true
  /\ Subscription.opt Subscription.category_valid (Body.category body) = true.
Proof.
  unfold put_checks.
  rewrite !app_nil, !optional_nil.
  destruct (Body.name body); simpl; tauto.
Qed.

Lemma isFloat_min0_cost_valid (c : float) :
  Validator.isFloat_min0 c = true -> Subscription.cost_valid c = true.
Proof.
  unfold Validator.isFloat_min0, Subscription.cost_valid.
  now intros [_ H]%andb_true_iff.
Qed.

Lemma existsb_id_false (oid : ObjectId) (db : list Subscription.t) :
  existsb (fun x => N.eqb (Subscription._id x) oid) db = false <->
  (forall d, In d db -> Subscription._id d <> oid).
Proof.
  induction db as [|x db IH]; simpl.
  - split; [intros _ d [] | reflexivity].
  - rewrite orb_false_iff, IH, N.eqb_neq. split.
    + intros [Hx Hdb] d [<-|Hd]; auto.
    + intros H. split; [apply H; now left | intros d Hd; apply H; now right].
Qed.

(** What a create request does, step by step. *)
Lemma post_subscription_created (db : list Subscription.t) (userId : ObjectId)
    (body : Body.t) (oid : ObjectId) (t_new t_save : Date) (r : Response)
    (db' : list Subscription.t) :
  post_subscription db userId body oid t_new t_save = (r, db') ->
  status r = 201%nat ->
  exists n c bc,
    Body.name body = Some n /\ Body.cost body = Some c
    /\ Body.billingCycle body = Some bc
    /\ (forall d, In d db -> Subscription._id d <> oid)
    /\ r = created (stored oid userId body n c bc t_new t_save)
    /\ db' = (db ++ [stored oid userId body n c bc t_new t_save])%list.
Proof.
  unfold post_subscription.
  destruct (post_checks body) as [|e errors] eqn:C;
    [|intros [= <- <-]; discriminate].
  apply post_checks_nil in C.
  destruct C as ([n [Hn _]] & [c [Hc _]] & [bc [Hb _]] & _).
  unfold Subscription.construct, with_user, sanitized. simpl.
  rewrite Hn, Hc, Hb. simpl.
  unfold Subscription.save.
  destruct (Subscription.validate _); [|intros [= <- <-]; discriminate].
  destruct (existsb _ db) eqn:X; [intros [= <- <-]; discriminate|].
  intros [= <- <-] _. exists n, c, bc.
  simpl in X. pose proof (proj1 (existsb_id_false oid db) X) as Hfresh.
  repeat split; assumption.
Qed.

(** ** POST /api/subscriptions *)

(** X1: a create request that passes the chains, with a color and notes the
    schema accepts and an unused [_id], is answered 201 and appends one
    document: the body with its [name] trimmed, the requester as [user]
    whatever [user] the body names, the schema defaults for the paths the
    body lacks, and the time of the save as [updatedAt]. *)
Theorem create_stores_sanitized_body (db : list Subscription.t)
    (userId : ObjectId) (body : Body.t) (oid : ObjectId) (t_new t_save : Date)
    (n : string) (c : float) (bc : string) :
  post_checks body = [] ->
  Body.name body = Some n -> Body.cost body = Some c ->
  Body.billingCycle body = Some bc ->
  Subscription.opt Subscription.color_valid (Body.color body) = true ->
  Subscription.opt Subscription.notes_valid (Body.notes body) = true ->
  (forall d, In d db -> Subscription._id d <> oid) ->
  post_subscription db userId body oid t_new t_save =
    ({| status := 201; success := true;
        message := Some "Subscription created successfully";
        payload := OneSubscription (stored oid userId body n c bc t_new t_save) |},
     (db ++ [stored oid userId body n c bc t_new t_save])%list).
Proof.
  intros C Hn Hc Hb Hcol Hnotes Hfresh.
  unfold post_subscription. rewrite C.
  apply post_checks_nil in C.
  destruct C as ([n' [Hn' Vn]] & [c' [Hc' Vc]] & [bc' [Hb' Vb]] & Vcat).
  rewrite Hn in Hn'. rewrite Hc in Hc'. rewrite Hb in Hb'.
  injection Hn' as <-. injection Hc' as <-. injection Hb' as <-.
  unfold Subscription.construct, with_user, sanitized. simpl.
  rewrite Hn, Hc, Hb. simpl.
  unfold Subscription.save.
  replace (Subscription.validate _) with true.
  - simpl. rewrite (proj2 (existsb_id_false oid db) Hfresh). reflexivity.
  - symmetry. unfold Subscription.validate. simpl.
    rewrite !andb_true_iff. repeat split.
    + exact Vn.
    + now apply isFloat_min0_cost_valid.
    + exact Vb.
    + destruct (Body.category body); [exact Vcat | reflexivity].
    + destruct (Body.color body); [exact Hcol | reflexivity].
    + exact Hnotes.
Qed.

Lemma create_stores_sanitized_body_witness :
  post_subscription Scenario.shared 7 Scenario.gym 4 4000 4001 =
    ({| status := 201; success := true;
        message := Some "Subscription created successfully";
        payload := OneSubscription
                     (stored 4 7 Scenario.gym "Gym" 30 "monthly" 4000 4001) |},
     (Scenario.shared ++ [stored 4 7 Scenario.gym "Gym" 30 "monthly" 4000 4001])%list)
  /\ Body.user Scenario.gym = Some 8%N
  /\ Subscription.user (stored 4 7 Scenario.gym "Gym" 30 "monthly" 4000 4001) = 7%N.
Proof.
  split; [|split; reflexivity].
  apply (create_stores_sanitized_body Scenario.shared 7 Scenario.gym 4 4000 4001
           "Gym" 30%float "monthly"); try reflexivity.
  intros d [<-|[<-|[<-|[]]]]; discriminate.
Defined.

(** X2: a create request has three outcomes.  It is answered 400 with the
    errors of the chains, or 500, and then the collection is as it was; or
    it is answered 201, and then the chains passed and the collection has
    gained, at its end, one document that belongs to the requester and
    carries the new [_id], which no document had before. *)
Theorem create_answers (db : list Subscription.t) (userId : ObjectId)
    (body : Body.t) (oid : ObjectId) (t_new t_save : Date) :
  let out := post_subscription db userId body oid t_new t_save in
  (fst out = bad_request (post_checks body) /\ post_checks body <> []
   /\ snd out = db)
  \/ (fst out = server_error /\ post_checks body = [] /\ snd out = db)
  \/ (exists d, fst out = created d /\ post_checks body = []
                /\ snd out = (db ++ [d])%list
                /\ Subscription.user d = userId /\ Subscription._id d = oid
                /\ forall x, In x db -> Subscription._id x <> oid).
Proof.
  cbv zeta.
  destruct (post_subscription db userId body oid t_new t_save) as [r db'] eqn:E.
  destruct (Nat.eq_dec (status r) 201%nat) as [S|S].
  - right. right.
    destruct (post_subscription_created _ _ _ _ _ _ _ _ E S)
      as (n & c & bc & Hn & Hc & Hb & Hfresh & -> & ->).
    eexists. split; [reflexivity|]. split.
    + unfold post_subscription in E.
      destruct (post_checks body); [reflexivity | discriminate].
    + repeat split. exact Hfresh.
  - unfold post_subscription in E.
    destruct (post_checks body) as [|e errors].
    + right. left.
      destruct (Subscription.construct _ _ _) as [s|].
      * destruct (Subscription.save _ _ _) as [[saved db'']|].
        -- injection E as <- <-. now contradiction S.
        -- injection E as <- <-. auto.
      * injection E as <- <-. auto.
    + left. injection E as <- <-. repeat split. discriminate.
Qed.

(** X3: a create request that passes the chains with a color that is not
    a hex color, or with notes longer than 500, fails in the schema
    validation of [save]: the answer is 500 "Server error", not 400, and
    nothing is stored. *)
Theorem create_with_bad_color_or_notes (db : list Subscription.t)
    (userId : ObjectId) (body : Body.t) (oid : ObjectId) (t_new t_save : Date) :
  post_checks body = [] ->
  Subscription.opt Subscription.color_valid (Body.color body) = false
  \/ Subscription.opt Subscription.notes_valid (Body.notes body) = false ->
  post_subscription db userId body oid t_new t_save =
    ({| status := 500; success := false; message := Some "Server error";
        payload := NoPayload |}, db).
Proof.
  intros C Hbad. unfold post_subscription. rewrite C.
  destruct (Subscription.construct _ _ _) as [s|] eqn:K; [|reflexivity].
  unfold Subscription.save.
  destruct (Subscription.validate s) eqn:V; [exfalso|reflexivity].
  unfold Subscription.construct, with_user, sanitized in K. simpl in K.
  destruct (Body.name body), (Body.cost body); try discriminate.
  injection K as <-. unfold Subscription.validate in V. simpl in V.
  rewrite !andb_true_iff in V. destruct V as [[_ Vcol] Vnotes].
  destruct Hbad as [H|H].
  - destruct (Body.color body); simpl in *; congruence.
  - congruence.
Qed.

Lemma create_with_bad_color_or_notes_witness :
  post_checks Scenario.bad_color = []
  /\ Body.color Scenario.bad_color = Some "red"
  /\ post_subscription Scenario.shared 7 Scenario.bad_color 4 4000 4001 =
       ({| status := 500; success := false; message := Some "Server error";
           payload := NoPayload |}, Scenario.shared).
Proof.
  split; [reflexivity|]. split; [reflexivity|].
  apply (create_with_bad_color_or_notes Scenario.shared 7 Scenario.bad_color
           4 4000 4001); [reflexivity | left; reflexivity].
Defined.

(** X4: a create request without [billingCycle] is answered 400 with the
    error of that field: the schema's default ['monthly'] is never applied
    to a request, and nothing is stored. *)
Theorem create_needs_billingCycle (db : list Subscription.t)
    (userId : ObjectId) (body : Body.t) (oid : ObjectId) (t_new t_save : Date) :
  Body.billingCycle body = None ->
  exists errors,
    post_subscription db userId body oid t_new t_save =
      ({| status := 400; success := false; message := None;
          payload := Errors errors |}, db)
    /\ In {| Validator.param := "billingCycle";
             Validator.msg := "Billing cycle must be monthly or yearly" |} errors.
Proof.
  intros Hb.
  assert (Hin : In {| Validator.param := "billingCycle";
                      Validator.msg := "Billing cycle must be monthly or yearly" |}
                   (post_checks body)).
  { unfold post_checks. rewrite Hb.
    apply in_or_app. right. apply in_or_app. right.
    apply in_or_app. left. left. reflexivity. }
  unfold post_subscription.
  destruct (post_checks body) as [|e errors]; [destruct Hin|].
  exists (e :: errors). split; [reflexivity | exact Hin].
Qed.

Lemma create_needs_billingCycle_witness :
  exists errors,
    post_subscription Scenario.shared 7 Scenario.no_cycle 4 4000 4001 =
      ({| status := 400; success := false; message := None;
          payload := Errors errors |}, Scenario.shared)
    /\ In {| Validator.param := "billingCycle";
             Validator.msg := "Billing cycle must be monthly or yearly" |} errors.
Proof.
  apply (create_needs_billingCycle Scenario.shared 7 Scenario.no_cycle 4 4000 4001).
  reflexivity.
Defined.

(** X5: a name that is absent, empty or made of white space only is
    answered 400 with "Subscription name is required", and nothing is
    stored. *)
Theorem create_needs_name (db : list Subscription.t)
    (userId : ObjectId) (body : Body.t) (oid : ObjectId) (t_new t_save : Date) :
  from_option (fun n => Validator.trim n = "") True (Body.name body) ->
  exists errors,
    post_subscription db userId body oid t_new t_save =
      ({| status := 400; success := false; message := None;
          payload := Errors errors |}, db)
    /\ In {| Validator.param := "name";
             Validator.msg := "Subscription name is required" |} errors.
Proof.
  intros Hn.
  assert (Hin : In {| Validator.param := "name";
                      Validator.msg := "Subscription name is required" |}
                   (post_checks body)).
  { unfold post_checks. apply in_or_app. left.
    destruct (Body.name body) as [n|]; simpl in *; [|now left].
    rewrite Hn. now left. }
  unfold post_subscription.
  destruct (post_checks body) as [|e errors]; [destruct Hin|].
  exists (e :: errors). split; [reflexivity | exact Hin].
Qed.

Lemma create_needs_name_witness :
  exists errors,
    post_subscription Scenario.shared 7 Scenario.blank_name 4 4000 4001 =
      ({| status := 400; success := false; message := None;
          payload := Errors errors |}, Scenario.shared)
    /\ In {| Validator.param := "name";
             Validator.msg := "Subscription name is required" |} errors.
Proof.
  apply (create_needs_name Scenario.shared 7 Scenario.blank_name 4 4000 4001).
  reflexivity.
Defined.

(** ** The collection *)

Lemma find_app_right {A} (q : A -> bool) (l1 l2 : list A) :
  (forall x, In x l1 -> q x = false) ->
  List.find q (l1 ++ l2) = List.find q l2.
Proof.
  induction l1 as [|x l1 IH]; intros H; simpl; [reflexivity|].
  rewrite (H x (or_introl eq_refl)). apply IH. intros y Hy. apply H. now right.
Qed.

(** The first match splits the collection: nothing before it matches. *)
Lemma findOne_split (q : Subscription.t -> bool) (db : list Subscription.t)
    (d : Subscription.t) :
  Subscription.findOne q db = Some d ->
  exists l1 l2,
    db = (l1 ++ d :: l2)%list /\ (forall x, In x l1 -> q x = false) /\ q d = true.
Proof.
  unfold Subscription.findOne.
  induction db as [|x db IH]; simpl; [discriminate|].
  destruct (q x) eqn:Q.
  - intros [= ->]. exists [], db. repeat split; [intros y [] | exact Q].
  - intros H. destruct (IH H) as (l1 & l2 & -> & Hl1 & Hd).
    exists (x :: l1), l2. repeat split; [|exact Hd].
    intros y [<-|Hy]; auto.
Qed.

Lemma findOneAndUpdate_split (q : Subscription.t -> bool) (u : Body.t)
    (l1 l2 : list Subscription.t) (d : Subscription.t) :
  (forall x, In x l1 -> q x = false) -> q d = true ->
  Subscription.findOneAndUpdate q u (l1 ++ d :: l2) =
    (Some (Subscription.set u d), (l1 ++ Subscription.set u d :: l2)%list).
Proof.
  intros Hl1 Hd. induction l1 as [|x l1 IH]; simpl.
  - now rewrite Hd.
  - rewrite (Hl1 x (or_introl eq_refl)), IH; [reflexivity|].
    intros y Hy. apply Hl1. now right.
Qed.

Lemma findOneAndUpdate_ids (q : Subscription.t -> bool) (u : Body.t)
    (db : list Subscription.t) :
  map Subscription._id (snd (Subscription.findOneAndUpdate q u db)) =
  map Subscription._id db.
Proof.
  induction db as [|x db IH]; simpl; [reflexivity|].
  destruct (q x); [reflexivity|].
  destruct (Subscription.findOneAndUpdate q u db) as [r db']. simpl in *.
  now rewrite IH.
Qed.

(** [findOneAndUpdate] keeps, at its index, every document that does not
    match the query. *)
Lemma findOneAndUpdate_frame (q : Subscription.t -> bool) (u : Body.t)
    (db : list Subscription.t) (i : nat) (d : Subscription.t) :
  db !! i = Some d -> q d = false ->
  snd (Subscription.findOneAndUpdate q u db) !! i = Some d.
Proof.
  revert i. induction db as [|x db IH]; intros i Hi Hq; [discriminate|].
  simpl. destruct (q x) eqn:Qx.
  - destruct i as [|i]; simpl in *; [congruence | exact Hi].
  - destruct (Subscription.findOneAndUpdate q u db) as [r db'] eqn:E.
    destruct i as [|i]; simpl in *; [exact Hi | now apply IH].
Qed.

(** The collection after an update or a delete: the collection itself, or
    what [findOneAndUpdate] made of it. *)
Lemma put_subscription_store (db : list Subscription.t) (userId id : ObjectId)
    (body : Body.t) (now : Date) :
  snd (put_subscription db userId id body now) = db
  \/ snd (put_subscription db userId id body now) =
       snd (Subscription.findOneAndUpdate (q_owned id userId)
              (with_updatedAt (sanitized body) now) db).
Proof.
  unfold put_subscription.
  destruct (put_checks body); [|now left].
  destruct (Subscription.validate_update _); [|now left].
  destruct (Subscription.findOneAndUpdate _ _ db) as [[s|] db'];
    [now right | now left].
Qed.

Lemma delete_subscription_store (db : list Subscription.t) (userId id : ObjectId)
    (now : Date) :
  snd (delete_subscription db userId id now) = db
  \/ snd (delete_subscription db userId id now) =
       snd (Subscription.findOneAndUpdate (q_owned id userId) (soft_delete now) db).
Proof.
  unfold delete_subscription.
  destruct (Subscription.findOneAndUpdate _ _ db) as [[s|] db'];
    [now right | now left].
Qed.

Lemma unowned_findOne (db : list Subscription.t) (userId id : ObjectId) :
  (forall d, In d db -> Subscription._id d = id -> Subscription.user d <> userId) ->
  Subscription.findOne (q_owned id userId) db = None.
Proof.
  intros H. apply find_none_iff. intros d Hd.
  destruct (q_owned id userId d) eqn:Q; [|reflexivity].
  apply q_owned_true in Q. destruct Q as [Qi Qu]. exfalso. exact (H d Hd Qi Qu).
Qed.

(** ** Round trips *)

(** X6: what a create request answers with 201 is what the single-get
    endpoint then returns to the same user under the new id, and, when the
    document is active, what the list endpoint shows. *)
Theorem create_then_get (db : list Subscription.t) (userId : ObjectId)
    (body : Body.t) (oid : ObjectId) (t_new t_save : Date) :
  let out := post_subscription db userId body oid t_new t_save in
  status (fst out) = 201%nat ->
  exists d,
    payload (fst out) = OneSubscription d
    /\ get_subscription (snd out) userId oid =
         {| status := 200; success := true; message := None;
            payload := OneSubscription d |}
    /\ (Subscription.isActive d = true ->
        In d (listed (get_subscriptions (snd out) userId))).
Proof.
  cbv zeta. intros S.
  destruct (post_subscription db userId body oid t_new t_save) as [r db'] eqn:E.
  destruct (post_subscription_created _ _ _ _ _ _ _ _ E S)
    as (n & c & bc & Hn & Hc & Hb & Hfresh & -> & ->).
  eexists. split; [reflexivity|]. simpl. split.
  - unfold get_subscription, Subscription.findOne.
    rewrite find_app_right.
    + simpl. unfold q_owned. simpl. now rewrite !N.eqb_refl.
    + intros x Hx. unfold q_owned.
      rewrite (proj2 (N.eqb_neq _ _) (Hfresh x Hx)). reflexivity.
  - intros A. apply listed_In. split; [|split; [reflexivity | exact A]].
    apply in_or_app. right. now left.
Qed.

Lemma create_then_get_witness :
  let out := post_subscription Scenario.shared 7 Scenario.gym 4 4000 4001 in
  status (fst out) = 201%nat
  /\ exists d,
      payload (fst out) = OneSubscription d
      /\ get_subscription (snd out) 7 4 =
           {| status := 200; success := true; message := None;
              payload := OneSubscription d |}.
Proof.
  cbv zeta. split; [reflexivity|].
  destruct (create_then_get Scenario.shared 7 Scenario.gym 4 4000 4001 eq_refl)
    as (d & E1 & E2 & _).
  exists d. split; [exact E1 | exact E2].
Defined.

(** X7: after an update that matched and passed validation, and that did
    not hand the subscription to another user, the single-get endpoint
    returns to the requester the document the update answered with. *)
Theorem update_then_get (db : list Subscription.t) (userId id : ObjectId)
    (body : Body.t) (now : Date) (d : Subscription.t) :
  Subscription.findOne (q_owned id userId) db = Some d ->
  put_checks body = [] ->
  Subscription.validate_update (with_updatedAt (sanitized body) now) = true ->
  from_option (fun v => v = userId) True (Body.user body) ->
  let out := put_subscription db userId id body now in
  exists d',
    fst out = {| status := 200; success := true;
                 message := Some "Subscription updated successfully";
                 payload := OneSubscription d' |}
    /\ get_subscription (snd out) userId id =
         {| status := 200; success := true; message := None;
            payload := OneSubscription d' |}.
Proof.
  intros Hf Hc Hv Hu. cbv zeta.
  destruct (findOne_split _ _ _ Hf) as (l1 & l2 & -> & Hl1 & Hd).
  unfold put_subscription. rewrite Hc, Hv.
  rewrite (findOneAndUpdate_split _ _ l1 l2 d Hl1 Hd). simpl.
  eexists. split; [reflexivity|].
  unfold get_subscription, Subscription.findOne.
  rewrite find_app_right by exact Hl1. simpl.
  replace (q_owned id userId (Subscription.set _ d)) with true; [reflexivity|].
  symmetry. apply q_owned_true in Hd. destruct Hd as [Hi Hown].
  apply q_owned_true. simpl. split; [exact Hi|].
  destruct (Body.user body) as [v|]; simpl in *; congruence.
Qed.

Lemma update_then_get_witness :
  let out := put_subscription Scenario.shared 7 2 Scenario.new_cost 9000 in
  exists d',
    fst out = {| status := 200; success := true;
                 message := Some "Subscription updated successfully";
                 payload := OneSubscription d' |}
    /\ Subscription.cost d' = 15%float
    /\ get_subscription (snd out) 7 2 =
         {| status := 200; success := true; message := None;
            payload := OneSubscription d' |}.
Proof.
  cbv zeta.
  destruct (update_then_get Scenario.shared 7 2 Scenario.new_cost 9000
              (Sample.doc 2 7 120 "yearly" 2000) eq_refl eq_refl eq_refl I)
    as (d' & E1 & E2).
  exists d'. split; [exact E1|]. split; [|exact E2].
  injection E1 as <-. reflexivity.
Defined.

(** ** Ownership *)

(** X8: an update or a delete changes no document but the one that carries
    the requested id and belongs to the requester: every other document is
    afterwards where it was, as it was, and the collection has as many
    documents as before. *)
Theorem writes_touch_one_document (db : list Subscription.t)
    (userId id : ObjectId) (body : Body.t) (now : Date) :
  (length (snd (put_subscription db userId id body now)) = length db
   /\ forall i d, db !! i = Some d -> q_owned id userId d = false ->
                  snd (put_subscription db userId id body now) !! i = Some d)
  /\ (length (snd (delete_subscription db userId id now)) = length db
      /\ forall i d, db !! i = Some d -> q_owned id userId d = false ->
                     snd (delete_subscription db userId id now) !! i = Some d).
Proof.
  split.
  - destruct (put_subscription_store db userId id body now) as [->| ->].
    + split; [reflexivity | auto].
    + split.
      * rewrite <- (length_map Subscription._id), findOneAndUpdate_ids.
        apply length_map.
      * intros i d. apply findOneAndUpdate_frame.
  - destruct (delete_subscription_store db userId id now) as [->| ->].
    + split; [reflexivity | auto].
    + split.
      * rewrite <- (length_map Subscription._id), findOneAndUpdate_ids.
        apply length_map.
      * intros i d. apply findOneAndUpdate_frame.
Qed.

(** X9: when every document that carries the requested id belongs to
    another user, a delete is answered 404, an update that passes
    validation is answered 404, and whatever the body the collection is
    left as it was: a user cannot change what another user owns. *)
Theorem foreign_id_cannot_be_written (db : list Subscription.t)
    (userId id : ObjectId) (now : Date) :
  (forall d, In d db -> Subscription._id d = id -> Subscription.user d <> userId) ->
  delete_subscription db userId id now =
    ({| status := 404; success := false;
        message := Some "Subscription not found"; payload := NoPayload |}, db)
  /\ (forall body, snd (put_subscription db userId id body now) = db)
  /\ (forall body,
        put_checks body = [] ->
        Subscription.validate_update (with_updatedAt (sanitized body) now) = true ->
        put_subscription db userId id body now =
          ({| status := 404; success := false;
              message := Some "Subscription not found"; payload := NoPayload |}, db)).
Proof.
  intros H. pose proof (unowned_findOne db userId id H) as F.
  split; [|split].
  - unfold delete_subscription.
    now rewrite (findOneAndUpdate_None _ (soft_delete now) db F).
  - intros body. unfold put_subscription.
    destruct (put_checks body); [|reflexivity].
    destruct (Subscription.validate_update _); [|reflexivity].
    now rewrite (findOneAndUpdate_None _ _ db F).
  - intros body Hc Hv. unfold put_subscription. rewrite Hc, Hv.
    now rewrite (findOneAndUpdate_None _ _ db F).
Qed.

Lemma foreign_id_cannot_be_written_witness :
  Subscription.findOne (q_owned 3 8) Scenario.shared =
    Some (Sample.doc 3 8 5 "monthly" 3000)
  /\ delete_subscription Scenario.shared 7 3 9000 =
       ({| status := 404; success := false;
           message := Some "Subscription not found"; payload := NoPayload |},
        Scenario.shared)
  /\ snd (put_subscription Scenario.shared 7 3 Scenario.new_cost 9000) =
       Scenario.shared.
Proof.
  split; [reflexivity|].
  destruct (foreign_id_cannot_be_written Scenario.shared 7 3 9000)
    as (Hd & Hp & _).
  - intros d [<-|[<-|[<-|[]]]]; simpl; intros; discriminate.
  - split; [exact Hd | apply Hp].
Defined.

Lemma find_active_own (db : list Subscription.t) (userId : ObjectId) :
  Subscription.find (q_active userId) (List.filter (own userId) db) =
  Subscription.find (q_active userId) db.
Proof.
  unfold Subscription.find. induction db as [|d db IH]; simpl; [reflexivity|].
  unfold own at 1, q_active at 2.
  destruct (N.eqb (Subscription.user d) userId) eqn:U; simpl.
  - unfold q_active at 1. rewrite U. simpl. now rewrite IH.
  - exact IH.
Qed.

Lemma findOne_owned_own (db : list Subscription.t) (userId id : ObjectId) :
  Subscription.findOne (q_owned id userId) (List.filter (own userId) db) =
  Subscription.findOne (q_owned id userId) db.
Proof.
  unfold Subscription.findOne. induction db as [|d db IH]; simpl; [reflexivity|].
  unfold own at 1, q_owned at 2.
  destruct (N.eqb (Subscription.user d) userId) eqn:U; simpl.
  - unfold q_owned at 1. rewrite U. now rewrite IH.
  - rewrite andb_false_r. exact IH.
Qed.

(** X10: what the three reading endpoints answer to a user is what they
    answer on the collection of that user's documents alone: no document of
    another user has any part in a list, a stats or a single-get
    response. *)
Theorem reads_see_own_documents_only (db : list Subscription.t)
    (userId id : ObjectId) (now : Date) :
  get_subscriptions db userId = get_subscriptions (List.filter (own userId) db) userId
  /\ get_stats_overview db userId now =
     get_stats_overview (List.filter (own userId) db) userId now
  /\ get_subscription db userId id =
     get_subscription (List.filter (own userId) db) userId id.
Proof.
  unfold get_subscriptions, get_stats_overview, get_subscription.
  now rewrite find_active_own, findOne_owned_own.
Qed.

(** ** GET /api/subscriptions *)

Lemma StronglySorted_weaken {A} (R R' : A -> A -> Prop) (l : list A) :
  (forall a b, R a b -> R' a b) -> StronglySorted R l -> StronglySorted R' l.
Proof.
  intros HR Hl. induction Hl as [|x l Hl IH Hx]; constructor; [exact IH|].
  eapply List.Forall_impl; [|exact Hx]. intros y. apply HR.
Qed.

(** X11: the list response holds the user's active subscriptions, each
    once, newest first, and [count] is their number. *)
Theorem list_is_newest_first (db : list Subscription.t) (userId : ObjectId) :
  exists subscriptions totals,
    get_subscriptions db userId =
      {| status := 200; success := true; message := None;
         payload := Subscriptions (length subscriptions) subscriptions totals |}
    /\ Permutation subscriptions (Subscription.find (q_active userId) db)
    /\ length subscriptions = length (Subscription.find (q_active userId) db)
    /\ StronglySorted
         (fun a b => Subscription.createdAt b <= Subscription.createdAt a)
         subscriptions.
Proof.
  eexists _, _. split; [reflexivity|].
  split; [symmetry; apply sort_perm|].
  split; [symmetry; apply Permutation_length, sort_perm|].
  unfold Subscription.sort_createdAt_desc.
  apply (StronglySorted_weaken
           (fun a b => - Subscription.createdAt a <= - Subscription.createdAt b)).
  - intros a b. lia.
  - apply (sort_sorted _ (fun d => - Subscription.createdAt d)).
    intros x y _ _. lia.
Qed.

(** ** DELETE /api/subscriptions/:id *)

Lemma filter_app_cons {A} (q : A -> bool) (l1 l2 : list A) (x : A) :
  List.filter q (l1 ++ x :: l2) =
  (List.filter q l1 ++ (if q x then [x] else []) ++ List.filter q l2)%list.
Proof.
  rewrite List.filter_app. simpl. now destruct (q x).
Qed.

(** X12: deleting an active subscription takes exactly that document out
    of the owner's list: the list before is the list after with the
    document put back, so [count] drops by one. *)
Theorem delete_unlists_one (db : list Subscription.t) (userId id : ObjectId)
    (now : Date) (d : Subscription.t) :
  Subscription.findOne (q_owned id userId) db = Some d ->
  Subscription.isActive d = true ->
  let db' := snd (delete_subscription db userId id now) in
  Permutation (listed (get_subscriptions db userId))
              (d :: listed (get_subscriptions db' userId))
  /\ length (listed (get_subscriptions db userId)) =
     S (length (listed (get_subscriptions db' userId))).
Proof.
  intros Hf Ha. cbv zeta.
  assert (P : Permutation (listed (get_subscriptions db userId))
                (d :: listed (get_subscriptions
                                (snd (delete_subscription db userId id now)) userId))).
  { destruct (findOne_split _ _ _ Hf) as (l1 & l2 & -> & Hl1 & Hd).
    unfold delete_subscription.
    rewrite (findOneAndUpdate_split _ (soft_delete now) l1 l2 d Hl1 Hd).
    unfold listed, get_subscriptions, Subscription.sort_createdAt_desc,
      Subscription.find. simpl.
    rewrite <- !sort_perm, !filter_app_cons.
    apply q_owned_true in Hd. destruct Hd as [_ Hu].
    replace (q_active userId d) with true
      by (symmetry; now apply q_active_true).
    replace (q_active userId (Subscription.set (soft_delete now) d)) with false
      by (unfold q_active; simpl; now rewrite andb_false_r).
    simpl. symmetry. apply Permutation_middle. }
  split; [exact P|]. now rewrite (Permutation_length P).
Qed.

Lemma delete_unlists_one_witness :
  let db' := snd (delete_subscription Scenario.shared 7 1 9000) in
  length (listed (get_subscriptions Scenario.shared 7)) = 2%nat
  /\ Permutation (listed (get_subscriptions Scenario.shared 7))
                 (Sample.doc 1 7 12 "monthly" 1000
                  :: listed (get_subscriptions db' 7))
  /\ length (listed (get_subscriptions Scenario.shared 7)) =
     S (length (listed (get_subscriptions db' 7))).
Proof.
  cbv zeta. split; [reflexivity|].
  apply (delete_unlists_one Scenario.shared 7 1 9000
           (Sample.doc 1 7 12 "monthly" 1000)); reflexivity.
Defined.

(** X13: a delete does not look at [isActive]: deleting a subscription that
    is already soft-deleted is answered 200 again, not 404, and the two
    deletes leave the collection as the later one alone would. *)
Theorem delete_twice (db : list Subscription.t) (userId id : ObjectId)
    (t1 t2 : Date) (d : Subscription.t) :
  Subscription.findOne (q_owned id userId) db = Some d ->
  let db1 := snd (delete_subscription db userId id t1) in
  delete_subscription db1 userId id t2 =
    ({| status := 200; success := true;
        message := Some "Subscription deleted successfully";
        payload := NoPayload |},
     snd (delete_subscription db userId id t2)).
Proof.
  intros Hf. cbv zeta.
  destruct (findOne_split _ _ _ Hf) as (l1 & l2 & -> & Hl1 & Hd).
  unfold delete_subscription.
  rewrite !(findOneAndUpdate_split _ _ l1 l2 d Hl1 Hd). simpl.
  rewrite (findOneAndUpdate_split _ _ l1 l2 _ Hl1); [reflexivity|].
  apply q_owned_true in Hd. now apply q_owned_true.
Qed.

Lemma delete_twice_witness :
  delete_subscription (snd (delete_subscription Scenario.shared 7 1 5000)) 7 1 9000 =
    ({| status := 200; success := true;
        message := Some "Subscription deleted successfully";
        payload := NoPayload |},
     snd (delete_subscription Scenario.shared 7 1 9000)).
Proof.
  apply (delete_twice Scenario.shared 7 1 5000 9000
           (Sample.doc 1 7 12 "monthly" 1000)).
  reflexivity.
Defined.

(** ** Invariants of the collection *)

(** X14: every write keeps the documents schema-valid: when all documents
    of the collection pass the schema's validators, so do all documents
    after a create, an update or a delete, whatever the request. *)
Theorem writes_keep_the_schema (db : list Subscription.t) :
  schema_valid db ->
  (forall userId body oid t_new t_save,
      schema_valid (snd (post_subscription db userId body oid t_new t_save)))
  /\ (forall userId id body now,
        schema_valid (snd (put_subscription db userId id body now)))
  /\ (forall userId id now,
        schema_valid (snd (delete_subscription db userId id now))).
Proof. exact (writes_keep_validity db). Qed.

Lemma writes_keep_the_schema_witness :
  schema_valid Scenario.shared
  /\ schema_valid (snd (post_subscription Scenario.shared 7 Scenario.gym 4 4000 4001))
  /\ schema_valid (snd (put_subscription Scenario.shared 7 2 Scenario.new_cost 9000))
  /\ schema_valid (snd (delete_subscription Scenario.shared 7 1 9000)).
Proof.
  assert (H : schema_valid Scenario.shared) by (repeat constructor).
  split; [exact H|].
  destruct (writes_keep_the_schema Scenario.shared H) as (Hpost & Hput & Hdel).
  split; [apply Hpost|]. split; [apply Hput | apply Hdel].
Defined.

(** X15: no write makes two documents share an [_id]: a create is refused
    when the id is taken, and an update or a delete changes no id. *)
Theorem writes_keep_ids_unique (db : list Subscription.t) :
  NoDup (map Subscription._id db) ->
  (forall userId body oid t_new t_save,
      NoDup (map Subscription._id
               (snd (post_subscription db userId body oid t_new t_save))))
  /\ (forall userId id body now,
        map Subscription._id (snd (put_subscription db userId id body now)) =
        map Subscription._id db)
  /\ (forall userId id now,
        map Subscription._id (snd (delete_subscription db userId id now)) =
        map Subscription._id db).
Proof.
  intros Hdb. split; [|split].
  - intros userId body oid t_new t_save.
    destruct (post_subscription db userId body oid t_new t_save) as [r db'] eqn:E.
    destruct (Nat.eq_dec (status r) 201%nat) as [S|S].
    + destruct (post_subscription_created _ _ _ _ _ _ _ _ E S)
        as (n & c & bc & _ & _ & _ & Hfresh & _ & ->).
      simpl. rewrite map_app. simpl.
      apply NoDup_app. split; [exact Hdb|]. split.
      * intros x Hx [<-|[]]%list_elem_of_In.
        apply list_elem_of_In, in_map_iff in Hx.
        destruct Hx as [y [Hy Hin]]. exact (Hfresh y Hin Hy).
      * apply NoDup_singleton.
    + destruct (post_subscription_cases db userId body oid t_new t_save)
        as [[r0 [E0 _]]|[d0 [E0 _]]]; rewrite E0 in E; injection E as <- <-.
      * exact Hdb.
      * now contradiction S.
  - intros userId id body now.
    destruct (put_subscription_store db userId id body now) as [->| ->];
      [reflexivity | apply findOneAndUpdate_ids].
  - intros userId id now.
    destruct (delete_subscription_store db userId id now) as [->| ->];
      [reflexivity | apply findOneAndUpdate_ids].
Qed.

Lemma writes_keep_ids_unique_witness :
  NoDup (map Subscription._id Scenario.shared)
  /\ NoDup (map Subscription._id
              (snd (post_subscription Scenario.shared 7 Scenario.gym 4 4000 4001)))
  /\ NoDup (map Subscription._id
              (snd (post_subscription Scenario.shared 7 Scenario.gym 2 4000 4001))).
Proof.
  assert (H : NoDup (map Subscription._id Scenario.shared))
    by (change (NoDup ([1; 2; 3]%N : list N));
        apply (bool_decide_unpack (NoDup ([1; 2; 3]%N : list N))); reflexivity).
  split; [exact H|].
  destruct (writes_keep_ids_unique Scenario.shared H) as (Hpost & _ & _).
  split; apply Hpost.
Defined.

(** ** Totals are never negative *)

Lemma SFmul_nonneg x my ey :
  nonneg_class x -> nonneg_class (SFmul prec emax x (S754_finite false my ey)).
Proof.
  destruct x as [[]|[]| |[] mx ex]; simpl; try tauto; intros _.
  pose proof (binary_round_aux_sign false (Z.pos (mx * my)) (ex + ey) loc_Exact
                ltac:(lia)) as H.
  destruct (binary_round_aux _ _ _ _ _ _) as [s|s| |s m e]; simpl; subst; tauto.
Qed.

Lemma mul_12_nonneg (m : float) :
  nonneg_class (Prim2SF m) -> nonneg_class (Prim2SF (m * 12)).
Proof.
  intros H. rewrite FloatAxioms.mul_spec.
  replace (Prim2SF 12) with (S754_finite false 6755399441055744 (-49))
    by reflexivity.
  now apply SFmul_nonneg.
Qed.

Lemma binary_round_positive mx ex :
  positive_class (binary_round prec emax false mx ex).
Proof.
  unfold binary_round. destruct (shl_align _ _ _) as [mz ez].
  pose proof (binary_round_aux_sign false (Z.pos mz) ez loc_Exact ltac:(lia)) as H.
  destruct (binary_round_aux _ _ _ _ _ _) as [s|s| |s m e]; simpl; subst; tauto.
Qed.

Lemma positive_nonneg (x : spec_float) : positive_class x -> nonneg_class x.
Proof. destruct x as [[]|[]| |[] m e]; simpl; tauto. Qed.

(** The binary64 value of a decomposition that is not negative is not
    negative. *)
Lemma SF2Prim_nonneg (y : spec_float) :
  nonneg_class y -> nonneg_class (Prim2SF (SF2Prim y)).
Proof.
  destruct y as [[]|[]| |[] m e]; simpl; try tauto; intros _; try exact I.
  rewrite Z_ldexp_spec, FloatAxioms.of_uint63_spec.
  match goal with
  | |- context [binary_normalize _ _ (Uint63Axioms.to_Z ?n)] =>
      pose proof (Uint63.to_Z_bounded n) as [Hm _];
      destruct (Uint63Axioms.to_Z n) as [|p|p]
  end; [exact I| |lia].
  simpl binary_normalize.
  pose proof (binary_round_positive p 0) as Hp.
  destruct (binary_round prec emax false p 0) as [[]|[]| |[] m' e'];
    simpl in Hp; try tauto; try exact I.
  simpl. apply positive_nonneg, binary_round_positive.
Qed.

Lemma round2_nonneg (x : float) :
  positive_class (Prim2SF x) -> nonneg_class (Prim2SF (JsNum.round2 x)).
Proof.
  intros Hx. unfold JsNum.round2, JsNum.toFixed2.
  destruct (Prim2SF x) as [[]|[]| |[] m e] eqn:E; simpl in Hx;
    try contradiction.
  - exact I.
  - simpl. now rewrite E.
  - destruct (_ <=? _); simpl; [now rewrite E|].
    destruct (_ / _) as [|p|p]; try exact I.
    apply SF2Prim_nonneg.
    exact (SFdiv_nonneg (S754_finite false p 0) 100 0 I).
Qed.

Lemma fold_add_positive (l : list float) (acc : float) :
  positive_class (Prim2SF acc) ->
  Forall (fun m => nonneg_class (Prim2SF m)) l ->
  positive_class (Prim2SF (fold_left PrimFloat.add l acc)).
Proof.
  intros Hacc Hl. revert acc Hacc.
  induction Hl as [|m l Hm Hl IH]; intros acc Hacc; simpl; [exact Hacc|].
  apply IH. now apply add_positive.
Qed.

(** X16: on a collection of schema-valid documents, the two totals of the
    list response are numbers at least 0: never negative and never NaN. *)
Theorem list_totals_are_not_negative (db : list Subscription.t) (userId : ObjectId) :
  schema_valid db ->
  exists subscriptions totals,
    get_subscriptions db userId =
      {| status := 200; success := true; message := None;
         payload := Subscriptions (length subscriptions) subscriptions totals |}
    /\ (0 <=? monthly totals)%float = true
    /\ (0 <=? yearly totals)%float = true.
Proof.
  intros Hdb. eexists _, _. split; [reflexivity|]. simpl.
  set (subs := Subscription.sort_createdAt_desc (Subscription.find (q_active userId) db)).
  assert (Hm : Forall (fun s => nonneg_class (Prim2SF (Subscription.monthlyCost s))) subs).
  { apply List.Forall_forall. intros s Hs.
    apply sort_In, filter_In in Hs. destruct Hs as [Hs _].
    unfold schema_valid in Hdb. rewrite List.Forall_forall in Hdb.
    specialize (Hdb s Hs). unfold Subscription.validate in Hdb.
    rewrite !andb_true_iff in Hdb. apply monthlyCost_nonneg. tauto. }
  rewrite reduce_totals_fsum. simpl. unfold JsNum.fsum.
  split; apply leb_zero_nonneg, round2_nonneg, fold_add_positive;
    try exact I.
  - apply Forall_map. exact Hm.
  - apply Forall_map. eapply List.Forall_impl; [|exact Hm].
    intros s. apply mul_12_nonneg.
Qed.

Lemma list_totals_are_not_negative_witness :
  schema_valid Scenario.shared
  /\ exists subscriptions totals,
      get_subscriptions Scenario.shared 7 =
        {| status := 200; success := true; message := None;
           payload := Subscriptions (length subscriptions) subscriptions totals |}
      /\ (0 <=? monthly totals)%float = true
      /\ (0 <=? yearly totals)%float = true.
Proof.
  assert (H : schema_valid Scenario.shared) by (repeat constructor).
  split; [exact H|].
  exact (list_totals_are_not_negative Scenario.shared 7 H).
Defined.

(** ** GET /api/subscriptions/stats/overview *)

(** X17: the upcoming renewals have no lower bound on the date.  When at
    most 5 of the user's active subscriptions renew within 30 days of now
    or earlier, every one of them is in the list, also one whose renewal
    date lies in the past. *)
Theorem upcoming_renewals_include_the_past (db : list Subscription.t)
    (userId : ObjectId) (now : Date) (sub : Subscription.t) (d : Date) :
  let active := Subscription.find (q_active userId) db in
  (length (List.filter (renews_soon now) active) <= 5)%nat ->
  In sub active ->
  Subscription.renewalDate sub = Some d ->
  d <= now + 30 * 24 * 60 * 60 * 1000 ->
  exists stats,
    get_stats_overview db userId now =
      {| status := 200; success := true; message := None;
         payload := StatsOverview stats |}
    /\ In {| Renewal.id := Subscription._id sub;
             Renewal.name := Subscription.name sub;
             Renewal.renewalDate := Some d;
             Renewal.cost := Subscription.cost sub;
             Renewal.billingCycle := Subscription.billingCycle sub |}
          (upcomingRenewals stats).
Proof.
  intros active Hlen Hin Hd Hle.
  eexists. split; [reflexivity|]. simpl. fold active.
  replace {| Renewal.id := _ |} with (project sub)
    by (unfold project; now rewrite Hd).
  apply in_map. unfold upcoming, JsArray.slice0.
  rewrite firstn_all2.
  - apply sort_In, filter_In. split; [exact Hin|].
    apply renews_soon_true. now exists d.
  - now rewrite <- (Permutation_length (sort_perm by_renewalDate _)).
Qed.

Lemma upcoming_renewals_include_the_past_witness :
  let db := [Scenario.renewing 1 500; Scenario.renewing 2 90000] in
  exists stats,
    get_stats_overview db 7 80000 =
      {| status := 200; success := true; message := None;
         payload := StatsOverview stats |}
    /\ In {| Renewal.id := 1%N; Renewal.name := "Plan";
             Renewal.renewalDate := Some 500;
             Renewal.cost := 12%float; Renewal.billingCycle := "monthly" |}
          (upcomingRenewals stats).
Proof.
  cbv zeta.
  apply (upcoming_renewals_include_the_past
           [Scenario.renewing 1 500; Scenario.renewing 2 90000] 7 80000
           (Scenario.renewing 1 500) 500).
  - simpl. lia.
  - left. reflexivity.
  - reflexivity.
  - lia.
Defined.

Lemma fold_breakdown_dom (l : list Subscription.t) (acc : gmap string float)
    (k : string) :
  is_Some (fold_left breakdown_step l acc !! k) ->
  is_Some (acc !! k) \/ exists sub, In sub l /\ Subscription.category sub = k.
Proof.
  revert acc. induction l as [|s l IH]; intros acc H; simpl in *; [now left|].
  destruct (IH _ H) as [Hs|[sub [Hin Hc]]].
  - rewrite breakdown_step_monthlyCost in Hs.
    destruct (decide (Subscription.category s = k)) as [E|E].
    + right. exists s. split; [now left | exact E].
    + rewrite lookup_insert_ne in Hs by exact E. now left.
  - right. exists sub. split; [now right | exact Hc].
Qed.

Lemma fold_breakdown_positive (l : list Subscription.t) (acc : gmap string float) :
  Forall (fun s => Subscription.cost_valid (Subscription.cost s) = true) l ->
  positive_values acc -> positive_values (fold_left breakdown_step l acc).
Proof.
  intros Hl. revert acc. induction Hl as [|s l Hs Hl IH]; intros acc Hacc; simpl.
  - exact Hacc.
  - apply IH. now apply breakdown_step_positive.
Qed.

(** X18: on a collection of schema-valid documents, every key of the
    category breakdown is one of the eight categories of the schema and the
    category of some active subscription of the user, and every value is a
    number at least 0, never NaN. *)
Theorem breakdown_keys_and_values (db : list Subscription.t) (userId : ObjectId)
    (now : Date) (stats : Stats) (c : string) (v : float) :
  schema_valid db ->
  payload (get_stats_overview db userId now) = StatsOverview stats ->
  categoryBreakdown stats !! c = Some v ->
  In c ["entertainment"; "productivity"; "fitness"; "education"; "music";
        "news"; "cloud"; "other"]
  /\ (exists sub, In sub (Subscription.find (q_active userId) db)
                  /\ Subscription.category sub = c)
  /\ (0 <=? v)%float = true.
Proof.
  intros Hdb [= <-] Hv. simpl in Hv. unfold reduce_breakdown in Hv.
  assert (Hvalid : forall s, In s (Subscription.find (q_active userId) db) ->
                             Subscription.validate s = true).
  { intros s Hs. apply filter_In in Hs. destruct Hs as [Hs _].
    unfold schema_valid in Hdb. rewrite List.Forall_forall in Hdb. auto. }
  destruct (fold_breakdown_dom _ ∅ c (mk_is_Some _ _ Hv)) as [H|[sub [Hin Hc]]].
  { rewrite lookup_empty in H. destruct H as [? [=]]. }
  split; [|split].
  - pose proof (Hvalid sub Hin) as V. unfold Subscription.validate in V.
    rewrite !andb_true_iff in V. destruct V as [[[_ Vcat] _] _].
    unfold Subscription.category_valid, Validator.isIn in Vcat.
    apply existsb_exists in Vcat. destruct Vcat as [k [Hk Ek]].
    apply String.eqb_eq in Ek. rewrite <- Hc, Ek. exact Hk.
  - now exists sub.
  - apply leb_zero_nonneg, positive_nonneg.
    eapply (fold_breakdown_positive _ ∅); [| |exact Hv].
    + apply List.Forall_forall. intros s Hs. specialize (Hvalid s Hs).
      unfold Subscription.validate in Hvalid.
      rewrite !andb_true_iff in Hvalid. tauto.
    + intros k x. rewrite lookup_empty. discriminate.
Qed.

Lemma breakdown_keys_and_values_witness :
  schema_valid Scenario.shared
  /\ exists stats,
      payload (get_stats_overview Scenario.shared 7 0) = StatsOverview stats
      /\ categoryBreakdown stats !! "other" = Some 22%float
      /\ In "other" ["entertainment"; "productivity"; "fitness"; "education";
                     "music"; "news"; "cloud"; "other"]
      /\ (0 <=? 22)%float = true.
Proof.
  assert (H : schema_valid Scenario.shared) by (repeat constructor).
  split; [exact H|]. eexists. split; [reflexivity|]. split; [reflexivity|].
  destruct (breakdown_keys_and_values Scenario.shared 7 0 _ "other" 22
              H eq_refl eq_refl) as (Hk & _ & Hv).
  split; [exact Hk | exact Hv].
Defined.

(** ** PUT /api/subscriptions/:id *)

(** X19: an update is a partial merge.  The document it answers with has
    the [_id] of the matched one and, for every path the body lacks other
    than [updatedAt], the value the matched document had. *)
Theorem update_keeps_absent_paths (db : list Subscription.t)
    (userId id : ObjectId) (body : Body.t) (now : Date) (d : Subscription.t) :
  Subscription.findOne (q_owned id userId) db = Some d ->
  put_checks body = [] ->
  Subscription.validate_update (with_updatedAt (sanitized body) now) = true ->
  exists d',
    fst (put_subscription db userId id body now) =
      {| status := 200; success := true;
         message := Some "Subscription updated successfully";
         payload := OneSubscription d' |}
    /\ Subscription._id d' = Subscription._id d
    /\ kept body d d'.
Proof.
  intros Hf Hc Hv.
  destruct (put_subscription_matched db userId id body now d Hf Hc Hv)
    as (l1 & l2 & _ & E).
  rewrite E. eexists. split; [reflexivity|]. split; [reflexivity|].
  unfold kept. simpl. repeat split; intros ->; reflexivity.
Qed.

Lemma update_keeps_absent_paths_witness :
  exists d',
    fst (put_subscription Scenario.shared 7 2 Scenario.new_cost 9000) =
      {| status := 200; success := true;
         message := Some "Subscription updated successfully";
         payload := OneSubscription d' |}
    /\ Subscription.cost d' = 15%float
    /\ Subscription.billingCycle d' = "yearly"
    /\ Subscription.createdAt d' = 2000.
Proof.
  destruct (update_keeps_absent_paths Scenario.shared 7 2 Scenario.new_cost 9000
              (Sample.doc 2 7 120 "yearly" 2000) eq_refl eq_refl eq_refl)
    as (d' & E & _ & K).
  exists d'. split; [exact E|].
  destruct K as (_ & _ & _ & Kb & _ & _ & _ & _ & _ & Kc).
  split; [|split; [apply Kb; reflexivity | apply Kc; reflexivity]].
  injection E as <-. reflexivity.
Defined.

(** The update validators after the chains: [name], [cost], [billingCycle]
    and [category] have been checked, [color] and [notes] have not. *)
Lemma validate_update_after_checks (body : Body.t) (now : Date) :
  put_checks body = [] ->
  Subscription.validate_update (with_updatedAt (sanitized body) now) =
  Subscription.opt Subscription.color_valid (Body.color body)
  && Subscription.opt Subscription.notes_valid (Body.notes body).
Proof.
  intros C. apply put_checks_nil in C. destruct C as (Hn & Hc & Hb & Hcat).
  unfold Subscription.validate_update. simpl.
  rewrite Hb, Hcat.
  replace (Subscription.opt Subscription.name_valid (Validator.trim <$> Body.name body))
    with true by (destruct (Body.name body); simpl in *; [now symmetry | reflexivity]).
  replace (Subscription.opt Subscription.cost_valid (Body.cost body)) with true.
  - reflexivity.
  - destruct (Body.cost body) as [c|]; simpl in *; [|reflexivity].
    symmetry. now apply isFloat_min0_cost_valid.
Qed.

(** X20: an update has four outcomes, tried in this order: 400 with the
    errors of the chains; 500 when the body passes the chains with a color
    that is no hex color or notes longer than 500; 404 when the requester
    owns no document with the id; and 200.  Only 200 changes the
    collection. *)
Theorem update_answers (db : list Subscription.t) (userId id : ObjectId)
    (body : Body.t) (now : Date) :
  let out := put_subscription db userId id body now in
  (put_checks body <> [] /\ out = (bad_request (put_checks body), db))
  \/ (put_checks body = []
      /\ Subscription.opt Subscription.color_valid (Body.color body)
         && Subscription.opt Subscription.notes_valid (Body.notes body) = false
      /\ out = (server_error, db))
  \/ (put_checks body = []
      /\ Subscription.opt Subscription.color_valid (Body.color body)
         && Subscription.opt Subscription.notes_valid (Body.notes body) = true
      /\ Subscription.findOne (q_owned id userId) db = None
      /\ out = (not_found, db))
  \/ (put_checks body = []
      /\ Subscription.opt Subscription.color_valid (Body.color body)
         && Subscription.opt Subscription.notes_valid (Body.notes body) = true
      /\ exists d, Subscription.findOne (q_owned id userId) db = Some d
                   /\ status (fst out) = 200%nat).
Proof.
  cbv zeta. unfold put_subscription.
  destruct (put_checks body) as [|e errors] eqn:C.
  - right. rewrite (validate_update_after_checks body now C).
    destruct (_ && _) eqn:V.
    + right.
      destruct (Subscription.findOne (q_owned id userId) db) as [d|] eqn:F.
      * right. split; [reflexivity|]. split; [reflexivity|]. exists d.
        split; [reflexivity|].
        destruct (findOneAndUpdate_Some _ (with_updatedAt (sanitized body) now) _ _ F)
          as (l1 & l2 & _ & ->). reflexivity.
      * left. rewrite (findOneAndUpdate_None _ _ db F). auto.
    + left. auto.
  - left. split; [discriminate | reflexivity].
Qed.

(** X21: handing a subscription to another user by an update takes it
    away from the requester: with ids unique, the requester is then
    answered 404 under that id, and the new owner gets the document. *)
Theorem update_can_give_away (db : list Subscription.t) (userId id other : ObjectId)
    (body : Body.t) (now : Date) (d : Subscription.t) :
  NoDup (map Subscription._id db) ->
  Subscription.findOne (q_owned id userId) db = Some d ->
  put_checks body = [] ->
  Subscription.validate_update (with_updatedAt (sanitized body) now) = true ->
  Body.user body = Some other -> other <> userId ->
  let out := put_subscription db userId id body now in
  exists d',
    fst out = {| status := 200; success := true;
                 message := Some "Subscription updated successfully";
                 payload := OneSubscription d' |}
    /\ Subscription.user d' = other
    /\ get_subscription (snd out) userId id =
         {| status := 404; success := false;
            message := Some "Subscription not found"; payload := NoPayload |}
    /\ get_subscription (snd out) other id =
         {| status := 200; success := true; message := None;
            payload := OneSubscription d' |}.
Proof.
  intros Hnd Hf Hc Hv Hu Hne. cbv zeta.
  destruct (findOne_split _ _ _ Hf) as (l1 & l2 & -> & Hl1 & Hd).
  apply q_owned_true in Hd. destruct Hd as [Hid Hown].
  assert (Hids : forall x, In x (l1 ++ l2)%list -> Subscription._id x <> id).
  { rewrite map_app in Hnd. simpl in Hnd.
    apply NoDup_app in Hnd. destruct Hnd as (_ & Hdisj & Hnd2).
    apply NoDup_cons in Hnd2. destruct Hnd2 as [Hnotin _].
    intros x Hx Ex. apply in_app_or in Hx. destruct Hx as [Hx|Hx].
    - apply (Hdisj (Subscription._id x)).
      + apply list_elem_of_In, in_map. exact Hx.
      + rewrite Ex, <- Hid. now left.
    - apply Hnotin. rewrite Hid, <- Ex. apply list_elem_of_In, in_map. exact Hx. }
  unfold put_subscription. rewrite Hc, Hv.
  rewrite (findOneAndUpdate_split _ _ l1 l2 d Hl1);
    [|apply q_owned_true; now split].
  simpl. eexists. split; [reflexivity|]. simpl. rewrite Hu. simpl.
  split; [reflexivity|].
  assert (Hmiss : forall u x, In x (l1 ++ l2)%list -> q_owned id u x = false).
  { intros u x Hx. unfold q_owned.
    now rewrite (proj2 (N.eqb_neq _ _) (Hids x Hx)). }
  unfold get_subscription, Subscription.findOne. split.
  - rewrite (proj2 (find_none_iff (q_owned id userId) _)); [reflexivity|].
    intros x Hx. apply in_app_or in Hx. destruct Hx as [Hx|[<-|Hx]].
    + apply Hmiss, in_or_app. now left.
    + unfold q_owned. simpl. rewrite Hu. simpl.
      rewrite (proj2 (N.eqb_neq _ _) Hne). apply andb_false_r.
    + apply Hmiss, in_or_app. now right.
  - rewrite find_app_right.
    + simpl. unfold q_owned at 1. simpl. rewrite Hu. simpl.
      now rewrite Hid, !N.eqb_refl.
    + intros x Hx. apply Hmiss, in_or_app. now left.
Qed.

Lemma update_can_give_away_witness :
  let out := put_subscription Scenario.shared 7 2 Scenario.give_to_8 9000 in
  status (fst out) = 200%nat
  /\ get_subscription Scenario.shared 7 2 =
       {| status := 200; success := true; message := None;
          payload := OneSubscription (Sample.doc 2 7 120 "yearly" 2000) |}
  /\ get_subscription (snd out) 7 2 =
       {| status := 404; success := false;
          message := Some "Subscription not found"; payload := NoPayload |}
  /\ status (get_subscription (snd out) 8 2) = 200%nat.
Proof.
  cbv zeta. split; [reflexivity|]. split; [reflexivity|].
  assert (H : NoDup (map Subscription._id Scenario.shared))
    by (change (NoDup ([1; 2; 3]%N : list N));
        apply (bool_decide_unpack (NoDup ([1; 2; 3]%N : list N))); reflexivity).
  destruct (update_can_give_away Scenario.shared 7 2 8 Scenario.give_to_8 9000
              (Sample.doc 2 7 120 "yearly" 2000) H eq_refl eq_refl eq_refl eq_refl)
    as (d' & _ & _ & E404 & E200).
  - discriminate.
  - split; [exact E404|]. now rewrite E200.
Defined.

(** ** What a response can hold *)

(** X22: a subscription that a create request stored has a name that is
    not empty and has no white space at either end. *)
Theorem created_name_is_trimmed (db : list Subscription.t) (userId : ObjectId)
    (body : Body.t) (oid : ObjectId) (t_new t_save : Date) (d : Subscription.t) :
  fst (post_subscription db userId body oid t_new t_save) = created d ->
  Subscription.name d <> ""
  /\ Validator.trim (Subscription.name d) = Subscription.name d.
Proof.
  intros E.
  destruct (post_subscription db userId body oid t_new t_save) as [r db'] eqn:P.
  simpl in E. subst r.
  destruct (post_subscription_created _ _ _ _ _ _ _ _ P eq_refl)
    as (n & c & bc & Hn & _ & _ & _ & [= ->] & _).
  simpl. split; [|apply trim_idempotent].
  assert (C : post_checks body = []).
  { unfold post_subscription in P.
    destruct (post_checks body); [reflexivity | discriminate]. }
  apply post_checks_nil in C. destruct C as ([n' [Hn' Vn]] & _).
  rewrite Hn in Hn'. injection Hn' as <-.
  unfold Validator.notEmpty in Vn. intros E. rewrite E in Vn. discriminate.
Qed.

Lemma created_name_is_trimmed_witness :
  fst (post_subscription Sample.two_plans 7 (Sample.netflix 16) 3 3000 3001) =
    created (stored 3 7 (Sample.netflix 16) " Netflix " 16 "monthly" 3000 3001)
  /\ Subscription.name
       (stored 3 7 (Sample.netflix 16) " Netflix " 16 "monthly" 3000 3001) = "Netflix"
  /\ Validator.trim "Netflix" = "Netflix".
Proof.
  split; [reflexivity|]. split; [reflexivity|].
  exact (proj2 (created_name_is_trimmed Sample.two_plans 7 (Sample.netflix 16)
                  3 3000 3001 _ eq_refl)).
Defined.

(** X23: the single-get endpoint answers 200 only with a document of the
    collection that carries the requested id and belongs to the requester;
    in every other case it answers 404. *)
Theorem get_returns_own_document (db : list Subscription.t) (userId id : ObjectId) :
  (exists d, get_subscription db userId id =
               {| status := 200; success := true; message := None;
                  payload := OneSubscription d |}
             /\ In d db /\ Subscription._id d = id /\ Subscription.user d = userId)
  \/ (get_subscription db userId id = not_found
      /\ forall d, In d db -> Subscription._id d = id ->
                   Subscription.user d <> userId).
Proof.
  unfold get_subscription.
  destruct (Subscription.findOne (q_owned id userId) db) as [d|] eqn:F.
  - left. exists d. split; [reflexivity|].
    apply find_some in F. destruct F as [Hin Q].
    apply q_owned_true in Q. tauto.
  - right. split; [reflexivity|]. intros d Hd Hi Hu.
    pose proof (proj1 (find_none_iff _ _) F d Hd) as Q.
    rewrite (proj2 (q_owned_true id userId d) (conj Hi Hu)) in Q. discriminate.
Qed.

(** X24: the stats endpoint counts what the list endpoint lists:
    [totalSubscriptions] is the [count] of the list response and the
    number of subscriptions in it. *)
Theorem stats_count_is_list_count (db : list Subscription.t) (userId : ObjectId)
    (now : Date) :
  exists stats subscriptions totals,
    get_stats_overview db userId now =
      {| status := 200; success := true; message := None;
         payload := StatsOverview stats |}
    /\ get_subscriptions db userId =
         {| status := 200; success := true; message := None;
            payload := Subscriptions (totalSubscriptions stats) subscriptions totals |}
    /\ length subscriptions = totalSubscriptions stats.
Proof.
  eexists _, _, _. split; [reflexivity|].
  assert (L : length (Subscription.sort_createdAt_desc
                        (Subscription.find (q_active userId) db)) =
              length (Subscription.find (q_active userId) db)).
  { symmetry. apply Permutation_length, sort_perm. }
  split; [|exact L].
  unfold get_subscriptions. rewrite L. reflexivity.
Qed.

(** X25: a soft delete keeps the data: the document that replaces the
    matched one differs from it in [isActive], now false, and [updatedAt],
    now the current time, and in nothing else. *)
Theorem delete_keeps_the_data (db : list Subscription.t) (userId id : ObjectId)
    (now : Date) (d : Subscription.t) :
  Subscription.findOne (q_owned id userId) db = Some d ->
  exists l1 l2,
    db = (l1 ++ d :: l2)%list
    /\ snd (delete_subscription db userId id now) =
       (l1 ++ {| Subscription._id := Subscription._id d;
                 Subscription.user := Subscription.user d;
                 Subscription.name := Subscription.name d;
                 Subscription.cost := Subscription.cost d;
                 Subscription.billingCycle := Subscription.billingCycle d;
                 Subscription.renewalDate := Subscription.renewalDate d;
                 Subscription.category := Subscription.category d;
                 Subscription.color := Subscription.color d;
                 Subscription.isActive := false;
                 Subscription.notes := Subscription.notes d;
                 Subscription.createdAt := Subscription.createdAt d;
                 Subscription.updatedAt := now |} :: l2)%list.
Proof.
  intros Hf.
  destruct (delete_subscription_matched db userId id now d Hf)
    as (l1 & l2 & E1 & E2).
  exists l1, l2. split; [exact E1|]. rewrite E2. reflexivity.
Qed.

Lemma delete_keeps_the_data_witness :
  Subscription.findOne (q_owned 2 7) Scenario.shared =
    Some (Sample.doc 2 7 120 "yearly" 2000)
  /\ exists l1 l2,
      Scenario.shared = (l1 ++ Sample.doc 2 7 120 "yearly" 2000 :: l2)%list
      /\ snd (delete_subscription Scenario.shared 7 2 9000) =
         (l1 ++ {| Subscription._id := 2; Subscription.user := 7;
                   Subscription.name := "Plan"; Subscription.cost := 120;
                   Subscription.billingCycle := "yearly";
                   Subscription.renewalDate := None;
                   Subscription.category := "other";
                   Subscription.color := "#6366f1";
                   Subscription.isActive := false;
                   Subscription.notes := None;
                   Subscription.createdAt := 2000;
                   Subscription.updatedAt := 9000 |} :: l2)%list.
Proof.
  split; [reflexivity|].
  exact (delete_keeps_the_data Scenario.shared 7 2 9000
           (Sample.doc 2 7 120 "yearly" 2000) eq_refl).
Defined.

(** X26: an update whose cost is a negative number is answered 400 with an
    error of the [cost] field, and the collection is left as it was. *)
Theorem update_rejects_negative_cost (db : list Subscription.t)
    (userId id : ObjectId) (body : Body.t) (now : Date) (c : float) :
  Body.cost body = Some c ->
  (c <? 0)%float = true ->
  exists errors,
    put_subscription db userId id body now =
      ({| status := 400; success := false; message := None;
          payload := Errors errors |}, db)
    /\ In {| Validator.param := "cost"; Validator.msg := "Invalid value" |} errors.
Proof.
  intros Hc Hneg.
  assert (Hin : In {| Validator.param := "cost"; Validator.msg := "Invalid value" |}
                   (put_checks body)).
  { unfold put_checks. rewrite Hc. simpl Validator.optional at 2.
    rewrite (negative_not_isFloat_min0 c Hneg).
    apply in_or_app. right. left. reflexivity. }
  unfold put_subscription.
  destruct (put_checks body) as [|e errors]; [destruct Hin|].
  exists (e :: errors). split; [reflexivity | exact Hin].
Qed.

Lemma update_rejects_negative_cost_witness :
  exists errors,
    put_subscription Scenario.shared 7 2 Scenario.negative_cost 9000 =
      ({| status := 400; success := false; message := None;
          payload := Errors errors |}, Scenario.shared)
    /\ In {| Validator.param := "cost"; Validator.msg := "Invalid value" |} errors.
Proof.
  apply (update_rejects_negative_cost Scenario.shared 7 2 Scenario.negative_cost
           9000 (-1)%float); reflexivity.
Defined.
